(** * TradeBench data-access client (supabase/schema.sql): a shallow embedding

    The file [supabase/schema.sql] holds the table declarations of the
    backend and, after them, the JavaScript API client that talks to these
    tables through supabase-js / PostgREST.  The client is embedded here
    function by function; the backend is modelled as far as the client uses
    it: tables are lists of rows, a request either fails as a whole (the
    [fault] argument of every operation: network fault, refused request, any
    error that is not a consequence of the rows) or is evaluated on the rows.

    Scope of the backend model.
    - Row-level policies and foreign keys are not modelled: the caller is
      taken to be allowed to see and write the rows it names, and referenced
      rows are taken to exist.
    - uuid values are abstract identifiers (strings); every string is read
      as a well-formed uuid.
    - JavaScript numbers are integers here (no NaN, no fractions).
    - Text is ordered and lower-cased byte-wise (ASCII). *)

From Stdlib Require Import ZArith List String Ascii Bool Lia.
From Stdlib Require Import Sorting.Sorted Sorting.Permutation.
From Stdlib Require Import DecimalString DecimalZ.
Import ListNotations.
Local Open Scope string_scope.
Local Open Scope Z_scope.
Local Open Scope list_scope.
Set Warnings "-register-all".

(** ** JavaScript values and control flow *)

Module Js.

(** A JSON / JavaScript value, as stored in a JSONB column or passed in a
    progress document. *)
Inductive value : Type :=
| Null
| Bool (b : bool)
| Num (n : Z)
| Str (s : string)
| Arr (items : list value)
| Obj (fields : list (string * value)).

Definition empty_object : value := Obj [].
Definition empty_array : value := Arr [].

(** Truthiness: [null], [false], [0] and the empty string are falsy, every
    array and object (also an empty one) is truthy. *)
Definition truthy (v : value) : bool :=
  match v with
  | Null => false
  | Bool b => b
  | Num n => negb (n =? 0)
  | Str s => negb (String.eqb s "")
  | Arr _ => true
  | Obj _ => true
  end.

(** [x || d] where [x] is a property read that may be [undefined]
    ([None]). *)
Definition or_else (x : option value) (d : value) : value :=
  match x with
  | Some v => if truthy v then v else d
  | None => d
  end.

(** [if (year)] on a number-or-null argument. *)
Definition truthy_num (x : option Z) : bool :=
  match x with
  | Some n => negb (n =? 0)
  | None => false
  end.

(** [if (section)] on a string-or-null argument. *)
Definition truthy_str (x : option string) : bool :=
  match x with
  | Some s => negb (String.eqb s "")
  | None => false
  end.

(** [String.prototype.toLowerCase], on ASCII. *)
Definition lower_ascii (c : ascii) : ascii :=
  let n := N_of_ascii c in
  if ((65 <=? n) && (n <=? 90))%N then ascii_of_N (n + 32) else c.

Fixpoint toLowerCase (s : string) : string :=
  match s with
  | EmptyString => EmptyString
  | String c rest => String (lower_ascii c) (toLowerCase rest)
  end.



End Js.

(** The error object of a PostgREST response: [{ code, message }]. *)
Record PgError : Type := mkPgError { code : string; message : string }.

(** What a JavaScript [throw] carries in this client: the error object of a
    response ([throw error]) or [new Error(message)]. *)
Inductive thrown : Type :=
| ThrownPg (e : PgError)
| ThrownError (msg : string).

(** The result of running an [async] function body: it returns or throws. *)
Inductive outcome (A : Type) : Type :=
| Return (a : A)
| Throw (t : thrown).
Arguments Return {A} a.
Arguments Throw {A} t.

Definition bind {A B : Type} (m : outcome A) (k : A -> outcome B) : outcome B :=
  match m with
  | Return a => k a
  | Throw t => Throw t
  end.

(** [try { body } catch (error) { handler }]. *)
Definition try_catch {A : Type} (body : outcome A) (handler : thrown -> outcome A)
  : outcome A :=
  match body with
  | Return a => Return a
  | Throw t => handler t
  end.

Declare Scope js_scope.
Delimit Scope js_scope with js.
Notation "x <- m ;; k" := (bind m (fun x => k))
  (at level 61, m at next level, right associativity) : js_scope.

(** What awaiting a supabase-js request resolves to: [{ data, error }]. *)
Record response (A : Type) : Type := mkResponse {
  data : option A;
  error : option PgError
}.
Arguments mkResponse {A} data error.
Arguments data {A} r.
Arguments error {A} r.

Definition ok {A : Type} (a : A) : response A := mkResponse (Some a) None.
Definition failed {A : Type} (e : PgError) : response A := mkResponse None (Some e).

(** [if (error) throw error], followed by the rest of the body. *)
Definition throw_if_error {A : Type} (e : option PgError) (rest : outcome A)
  : outcome A :=
  match e with
  | Some err => Throw (ThrownPg err)
  | None => rest
  end.

(** ** The tables of the schema *)

Definition uuid : Type := string.
Definition timestamptz : Type := Z.

(** [public.profiles] *)
Record profile : Type := mkProfile {
  p_id : uuid;
  p_email : option string;
  p_full_name : option string;
  p_first_name : option string;
  p_last_name : option string;
  p_selected_year : option Z;
  p_security_question : option string;
  p_security_answer : option string;
  p_created_at : timestamptz;
  p_updated_at : timestamptz
}.

(** [public.questions] *)
Record question : Type := mkQuestion {
  q_id : uuid;
  q_year : Z;
  q_section : option string;
  q_difficulty : option string;
  q_question_text : string;
  q_options : Js.value;
  q_correct_answer : string;
  q_explanation : option string;
  q_created_at : timestamptz;
  q_updated_at : timestamptz
}.

(** [public.study_guides] *)
Record study_guide : Type := mkStudyGuide {
  g_id : uuid;
  g_year : Z;
  g_section : option string;
  g_title : string;
  g_content : string;
  g_created_at : timestamptz;
  g_updated_at : timestamptz
}.

(** [public.user_progress], [UNIQUE(user_id, year)].  The row type is also
    the shape of the object [userProgress.get] returns; the default document
    built by the client has no [id] and no timestamps, hence the options. *)
Record user_progress : Type := mkUserProgress {
  up_id : option uuid;
  up_user_id : uuid;
  up_year : Z;
  progress_data : Js.value;
  exam_readiness : Js.value;
  statistics : Js.value;
  bookmarks_json : Js.value;
  weak_areas : Js.value;
  streak_data : Js.value;
  up_created_at : option timestamptz;
  up_updated_at : option timestamptz
}.

(** [public.quiz_sessions] *)
Record quiz_session : Type := mkQuizSession {
  qs_id : uuid;
  qs_user_id : uuid;
  qs_year : Z;
  qs_quiz_mode : string;
  qs_questions : Js.value;
  qs_answers : Js.value;
  qs_score : Z;
  qs_total_questions : Z;
  qs_time_taken : Z;
  completed_at : option timestamptz;
  qs_created_at : timestamptz
}.

(** [public.bookmarks], [UNIQUE(user_id, question_id)] *)
Record bookmark : Type := mkBookmark {
  b_id : uuid;
  b_user_id : uuid;
  b_question_id : uuid;
  b_year : Z;
  b_created_at : timestamptz
}.

(** The database: the six tables, and the passwords kept by the identity
    service ([auth.users]). *)
Record DB : Type := mkDB {
  profiles : list profile;
  questions : list question;
  study_guides : list study_guide;
  user_progress_rows : list user_progress;
  quiz_sessions : list quiz_session;
  bookmarks : list bookmark;
  auth_passwords : list (uuid * string)
}.

Definition empty_db : DB := mkDB [] [] [] [] [] [] [].

(** ** Requests: the part of PostgREST the client uses *)

Definition PGRST116 : PgError :=
  mkPgError "PGRST116" "JSON object requested, multiple (or no) rows returned".

Definition unique_violation : PgError :=
  mkPgError "23505" "duplicate key value violates unique constraint".

Definition invalid_datetime : PgError :=
  mkPgError "22007" "invalid input syntax for type timestamp with time zone".

Section Query.

Variable R : Type.

(** A filter of a request.  The database either rejects it (the value
    cannot be read at the column's type) or evaluates it on each row. *)
Definition row_filter : Type := (PgError + (R -> bool))%type.

(** A request under construction: [from(table)], then [eq], [order],
    [limit] in any order. *)
Record query : Type := mkQuery {
  source : list R;
  filters : list row_filter;
  ordering : option (R -> R -> bool);
  row_limit : option nat
}.

Definition from (table : list R) : query := mkQuery table [] None None.

Definition where_ (f : row_filter) (q : query) : query :=
  mkQuery (source q) (filters q ++ [f]) (ordering q) (row_limit q).

Definition order (le : R -> R -> bool) (q : query) : query :=
  mkQuery (source q) (filters q) (Some le) (row_limit q).

Definition limit (n : nat) (q : query) : query :=
  mkQuery (source q) (filters q) (ordering q) (Some n).

Fixpoint rejected (fs : list row_filter) : option PgError :=
  match fs with
  | [] => None
  | inl e :: _ => Some e
  | inr _ :: rest => rejected rest
  end.

Fixpoint keeps (fs : list row_filter) (r : R) : bool :=
  match fs with
  | [] => true
  | inl _ :: rest => keeps rest r
  | inr p :: rest => p r && keeps rest r
  end.

(** [ORDER BY]: a stable insertion sort. *)
Fixpoint insert_sorted (le : R -> R -> bool) (x : R) (l : list R) : list R :=
  match l with
  | [] => [x]
  | y :: rest => if le x y then x :: l else y :: insert_sorted le x rest
  end.

Fixpoint sort_by (le : R -> R -> bool) (l : list R) : list R :=
  match l with
  | [] => []
  | x :: rest => insert_sorted le x (sort_by le rest)
  end.

Definition apply_order (o : option (R -> R -> bool)) (l : list R) : list R :=
  match o with
  | Some le => sort_by le l
  | None => l
  end.

Definition apply_limit (n : option nat) (l : list R) : list R :=
  match n with
  | Some k => firstn k l
  | None => l
  end.

(** [await query]: WHERE, then ORDER BY, then LIMIT. *)
Definition await (fault : option PgError) (q : query) : response (list R) :=
  match fault with
  | Some e => failed e
  | None =>
      match rejected (filters q) with
      | Some e => failed e
      | None =>
          ok (apply_limit (row_limit q)
                (apply_order (ordering q)
                   (filter (keeps (filters q)) (source q))))
      end
  end.

(** [.single()]: exactly one row, or the error PGRST116. *)
Definition single (r : response (list R)) : response R :=
  match error r with
  | Some e => failed e
  | None =>
      match data r with
      | Some [x] => ok x
      | _ => failed PGRST116
      end
  end.

End Query.

Arguments from {R} table.
Arguments where_ {R} f q.
Arguments order {R} le q.
Arguments limit {R} n q.
Arguments rejected {R} fs.
Arguments keeps {R} fs r.
Arguments insert_sorted {R} le x l.
Arguments sort_by {R} le l.
Arguments apply_order {R} o l.
Arguments apply_limit {R} n l.
Arguments await {R} fault q.
Arguments single {R} r.
Arguments source {R} q.
Arguments filters {R} q.
Arguments ordering {R} q.
Arguments row_limit {R} q.

(** [.select('a, b')] on a response: keep the named columns. *)
Definition select_columns {R S : Type} (proj : R -> S) (r : response (list R))
  : response (list S) :=
  mkResponse (option_map (map proj) (data r)) (error r).

Notation "q |> f" := (f q) (at level 45, left associativity, only parsing).

(** [.eq(column, value)] on columns of the types the client filters on. *)
Definition eq_uuid {R : Type} (col : R -> uuid) (v : uuid) : row_filter R :=
  inr (fun r => String.eqb (col r) v).

Definition eq_integer {R : Type} (col : R -> Z) (v : Z) : row_filter R :=
  inr (fun r => col r =? v).

(** A nullable TEXT column: a NULL cell equals nothing. *)
Definition eq_text {R : Type} (col : R -> option string) (v : string) : row_filter R :=
  inr (fun r => match col r with
                | Some s => String.eqb s v
                | None => false
                end).

(** A TIMESTAMPTZ column.  supabase-js writes the value into the request as
    [column=eq.<value>]; JavaScript [null] ([None]) becomes the text [null],
    which the database cannot read as a timestamp, and the request is
    rejected.  (The test for NULL is a different operator, [is].) *)
Definition eq_timestamptz {R : Type} (col : R -> option timestamptz)
  (v : option timestamptz) : row_filter R :=
  match v with
  | None => inl invalid_datetime
  | Some t => inr (fun r => match col r with
                            | Some c => c =? t
                            | None => false
                            end)
  end.

(** [ORDER BY year, section] (ascending, NULL sections last). *)
Definition text_le_nulls_last (a b : option string) : bool :=
  match a, b with
  | Some x, Some y => String.leb x y
  | Some _, None => true
  | None, Some _ => false
  | None, None => true
  end.

Definition year_section_le (y1 : Z) (s1 : option string) (y2 : Z) (s2 : option string)
  : bool :=
  (y1 <? y2) || ((y1 =? y2) && text_le_nulls_last s1 s2).

Definition question_le (a b : question) : bool :=
  year_section_le (q_year a) (q_section a) (q_year b) (q_section b).

Definition study_guide_le (a b : study_guide) : bool :=
  year_section_le (g_year a) (g_section a) (g_year b) (g_section b).

(** [ORDER BY completed_at DESC] (NULL first, the default of DESC). *)
Definition completed_at_desc (a b : quiz_session) : bool :=
  match completed_at a, completed_at b with
  | None, _ => true
  | Some _, None => false
  | Some x, Some y => y <=? x
  end.

(** ** The API client *)

(** [if (x) { query = then_(x, query) }] for a number-or-null [x]. *)
Definition if_num {A : Type} (x : option Z) (then_ : Z -> A -> A) (a : A) : A :=
  match x with
  | Some n => if Js.truthy (Js.Num n) then then_ n a else a
  | None => a
  end.

(** The same for a string-or-null [x]. *)
Definition if_str {A : Type} (x : option string) (then_ : string -> A -> A) (a : A) : A :=
  match x with
  | Some s => if Js.truthy (Js.Str s) then then_ s a else a
  | None => a
  end.

(** [data || []] *)
Definition or_empty {A : Type} (d : option (list A)) : list A :=
  match d with
  | Some l => l
  | None => []
  end.

(** [api.questions.getAll(year = null, section = null, difficulty = null)] *)
Definition questions_getAll (fault : option PgError) (db : DB)
  (year : option Z) (section difficulty : option string) : outcome (list question) :=
  try_catch
    (let query := from (questions db) |> order question_le in
     let query := if_num year (fun y => where_ (eq_integer q_year y)) query in
     let query := if_str section (fun s => where_ (eq_text q_section s)) query in
     let query := if_str difficulty (fun d => where_ (eq_text q_difficulty d)) query in
     let r := await fault query in
     throw_if_error (error r) (Return (or_empty (data r))))
    (fun _ => Return []).

(** [api.studyGuides.getAll(year = null, section = null)] *)
Definition studyGuides_getAll (fault : option PgError) (db : DB)
  (year : option Z) (section : option string) : outcome (list study_guide) :=
  try_catch
    (let query := from (study_guides db) |> order study_guide_le in
     let query := if_num year (fun y => where_ (eq_integer g_year y)) query in
     let query := if_str section (fun s => where_ (eq_text g_section s)) query in
     let r := await fault query in
     throw_if_error (error r) (Return (or_empty (data r))))
    (fun _ => Return []).

(** The document [userProgress.get] builds when the read gave no row. *)
Definition default_document (userId : uuid) (year : Z) : user_progress :=
  {| up_id := None;
     up_user_id := userId;
     up_year := year;
     progress_data := Js.empty_object;
     exam_readiness := Js.empty_object;
     statistics := Js.empty_object;
     bookmarks_json := Js.empty_array;
     weak_areas := Js.empty_array;
     streak_data := Js.empty_object;
     up_created_at := None;
     up_updated_at := None |}.

(** [api.userProgress.get(userId, year)]; the result [None] is JavaScript
    [null]. *)
Definition userProgress_get (fault : option PgError) (db : DB)
  (userId : uuid) (year : Z) : outcome (option user_progress) :=
  try_catch
    (let r := from (user_progress_rows db)
                |> where_ (eq_uuid up_user_id userId)
                |> where_ (eq_integer up_year year)
                |> await fault
                |> single in
     _ <- match error r with
          | Some e => if negb (String.eqb (code e) "PGRST116")
                      then Throw (ThrownPg e)
                      else Return tt
          | None => Return tt
          end ;;
     Return (Some match data r with
                  | Some row => row
                  | None => default_document userId year
                  end))%js
    (fun _ => Return None).

(** [api.quizSessions.getHistory(userId, year, limit = 10)].  The call
    [.eq('completed_at', null, 'neq')] passes three arguments to a method of
    two: the third is dropped. *)
Definition quizSessions_getHistory (fault : option PgError) (db : DB)
  (userId : uuid) (year : Z) (limit_arg : option nat) : outcome (list quiz_session) :=
  let limit_ := match limit_arg with Some n => n | None => 10%nat end in
  try_catch
    (let r := from (quiz_sessions db)
                |> where_ (eq_uuid qs_user_id userId)
                |> where_ (eq_integer qs_year year)
                |> where_ (eq_timestamptz completed_at None)
                |> order completed_at_desc
                |> limit limit_
                |> await fault in
     throw_if_error (error r) (Return (or_empty (data r))))
    (fun _ => Return []).

(** *** Writes *)

(** [DEFAULT uuid_generate_v4()]: an identifier no row of the table has yet
    (here: a string longer than every identifier in use). *)
Fixpoint longest (used : list uuid) : nat :=
  match used with
  | [] => 0%nat
  | s :: rest => Nat.max (String.length s) (longest rest)
  end.

Fixpoint zeros (n : nat) : string :=
  match n with
  | O => EmptyString
  | S k => String "0"%char (zeros k)
  end.

Definition uuid_generate_v4 (used : list uuid) : uuid := zeros (S (longest used)).

Definition ids_in_use (rows : list user_progress) : list uuid :=
  flat_map (fun r => match up_id r with Some i => [i] | None => [] end) rows.

(** The [progressData] argument of [userProgress.update]: a property that is
    absent reads as [undefined] ([None]). *)
Record progress_input : Type := mkProgressInput {
  in_progress_data : option Js.value;
  in_exam_readiness : option Js.value;
  in_statistics : option Js.value;
  in_bookmarks : option Js.value;
  in_weak_areas : option Js.value;
  in_streak_data : option Js.value
}.

Definition same_user_year (userId : uuid) (year : Z) (r : user_progress) : bool :=
  String.eqb (up_user_id r) userId && (up_year r =? year).

(** [UPDATE ... SET ... WHERE key]: the rows of the key are rewritten in
    place. *)
Definition update_where {R : Type} (key : R -> bool) (set : R -> R) (rows : list R)
  : list R :=
  map (fun r => if key r then set r else r) rows.

(** The columns an upsert may name in [onConflict]. *)
Inductive conflict_target : Type :=
| OnPrimaryKey
| OnUserYear.

(** [.upsert(values, { onConflict })] on [user_progress], for [values]
    without an [id], as the client sends them.  An upsert is
    [INSERT ... ON CONFLICT (target) DO UPDATE]; when [onConflict] is not
    given the target is the primary key (supabase-js: primary keys must be
    included in [values] to use upsert).  Here the row gets a generated [id],
    so it never conflicts on the primary key and is inserted, and the
    insertion is refused when [UNIQUE(user_id, year)] is violated.  With
    [onConflict: 'user_id,year'] the row with that key is overwritten by the
    values (and the trigger [handle_user_progress_updated_at] refreshes
    [updated_at]). *)
Definition upsert_user_progress (fault : option PgError) (now : timestamptz)
  (onConflict : option conflict_target) (values : user_progress)
  (rows : list user_progress) : response (list user_progress) * list user_progress :=
  match fault with
  | Some e => (failed e, rows)
  | None =>
      let key := same_user_year (up_user_id values) (up_year values) in
      let inserted :=
        {| up_id := Some (uuid_generate_v4 (ids_in_use rows));
           up_user_id := up_user_id values;
           up_year := up_year values;
           progress_data := progress_data values;
           exam_readiness := exam_readiness values;
           statistics := statistics values;
           bookmarks_json := bookmarks_json values;
           weak_areas := weak_areas values;
           streak_data := streak_data values;
           up_created_at := Some now;
           up_updated_at := Some now |} in
      let overwrite (old : user_progress) :=
        {| up_id := up_id old;
           up_user_id := up_user_id values;
           up_year := up_year values;
           progress_data := progress_data values;
           exam_readiness := exam_readiness values;
           statistics := statistics values;
           bookmarks_json := bookmarks_json values;
           weak_areas := weak_areas values;
           streak_data := streak_data values;
           up_created_at := up_created_at old;
           up_updated_at := Some now |} in
      if existsb key rows then
        match onConflict with
        | Some OnUserYear =>
            (ok (map overwrite (filter key rows)), update_where key overwrite rows)
        | Some OnPrimaryKey | None => (failed unique_violation, rows)
        end
      else (ok [inserted], rows ++ [inserted])
  end.

Definition set_user_progress (db : DB) (rows : list user_progress) : DB :=
  {| profiles := profiles db;
     questions := questions db;
     study_guides := study_guides db;
     user_progress_rows := rows;
     quiz_sessions := quiz_sessions db;
     bookmarks := bookmarks db;
     auth_passwords := auth_passwords db |}.

(** [api.userProgress.update(userId, year, progressData)] *)
Definition userProgress_update (fault : option PgError) (now : timestamptz) (db : DB)
  (userId : uuid) (year : Z) (progressData : progress_input)
  : outcome (option user_progress) * DB :=
  let values :=
    {| up_id := None;
       up_user_id := userId;
       up_year := year;
       progress_data := Js.or_else (in_progress_data progressData) Js.empty_object;
       exam_readiness := Js.or_else (in_exam_readiness progressData) Js.empty_object;
       statistics := Js.or_else (in_statistics progressData) Js.empty_object;
       bookmarks_json := Js.or_else (in_bookmarks progressData) Js.empty_array;
       weak_areas := Js.or_else (in_weak_areas progressData) Js.empty_array;
       streak_data := Js.or_else (in_streak_data progressData) Js.empty_object;
       up_created_at := None;
       up_updated_at := None |} in
  let '(written, rows) := upsert_user_progress fault now None values (user_progress_rows db) in
  let r := single written in
  (try_catch
     (throw_if_error (error r) (Return (data r)))
     (fun e => Throw e),
   set_user_progress db rows).

(** The database function [public.update_user_progress] of the schema:
    [INSERT ... ON CONFLICT (user_id, year) DO UPDATE SET progress_data = ...,
    updated_at = NOW()]; the other columns of a new row take their defaults. *)
Definition update_user_progress (now : timestamptz) (rows : list user_progress)
  (p_user_id : uuid) (p_year : Z) (p_progress_data : Js.value)
  : bool * list user_progress :=
  let key := same_user_year p_user_id p_year in
  let set_progress (old : user_progress) :=
    {| up_id := up_id old;
       up_user_id := up_user_id old;
       up_year := up_year old;
       progress_data := p_progress_data;
       exam_readiness := exam_readiness old;
       statistics := statistics old;
       bookmarks_json := bookmarks_json old;
       weak_areas := weak_areas old;
       streak_data := streak_data old;
       up_created_at := up_created_at old;
       up_updated_at := Some now |} in
  let inserted :=
    {| up_id := Some (uuid_generate_v4 (ids_in_use rows));
       up_user_id := p_user_id;
       up_year := p_year;
       progress_data := p_progress_data;
       exam_readiness := Js.empty_object;
       statistics := Js.empty_object;
       bookmarks_json := Js.empty_array;
       weak_areas := Js.empty_array;
       streak_data := Js.empty_object;
       up_created_at := Some now;
       up_updated_at := Some now |} in
  if existsb key rows
  then (true, update_where key set_progress rows)
  else (true, rows ++ [inserted]).

Definition same_user_question (userId questionId : uuid) (b : bookmark) : bool :=
  String.eqb (b_user_id b) userId && String.eqb (b_question_id b) questionId.

(** [.insert({ user_id, question_id, year })] on [bookmarks]: [id] and
    [created_at] take their defaults, [UNIQUE(user_id, question_id)] is
    checked. *)
Definition insert_bookmark (fault : option PgError) (now : timestamptz)
  (userId questionId : uuid) (year : Z) (rows : list bookmark)
  : response (list bookmark) * list bookmark :=
  match fault with
  | Some e => (failed e, rows)
  | None =>
      if existsb (same_user_question userId questionId) rows
      then (failed unique_violation, rows)
      else
        let row := {| b_id := uuid_generate_v4 (map b_id rows);
                      b_user_id := userId;
                      b_question_id := questionId;
                      b_year := year;
                      b_created_at := now |} in
        (ok [row], rows ++ [row])
  end.

(** [.delete()] with filters: the rows all filters keep are removed; the
    response carries no rows. *)
Definition delete_where {R : Type} (fault : option PgError) (fs : list (row_filter R))
  (rows : list R) : response (list R) * list R :=
  match fault with
  | Some e => (failed e, rows)
  | None =>
      match rejected fs with
      | Some e => (failed e, rows)
      | None => (mkResponse None None, filter (fun r => negb (keeps fs r)) rows)
      end
  end.

Definition set_bookmarks (db : DB) (rows : list bookmark) : DB :=
  {| profiles := profiles db;
     questions := questions db;
     study_guides := study_guides db;
     user_progress_rows := user_progress_rows db;
     quiz_sessions := quiz_sessions db;
     bookmarks := rows;
     auth_passwords := auth_passwords db |}.

(** [api.bookmarks.add(userId, questionId, year)] *)
Definition bookmarks_add (fault : option PgError) (now : timestamptz) (db : DB)
  (userId questionId : uuid) (year : Z) : outcome (option bookmark) * DB :=
  let '(written, rows) := insert_bookmark fault now userId questionId year (bookmarks db) in
  let r := single written in
  (try_catch
     (throw_if_error (error r) (Return (data r)))
     (fun e => Throw e),
   set_bookmarks db rows).

(** [api.bookmarks.remove(userId, questionId)] *)
Definition bookmarks_remove (fault : option PgError) (db : DB)
  (userId questionId : uuid) : outcome bool * DB :=
  let '(r, rows) :=
    delete_where fault
      [eq_uuid b_user_id userId; eq_uuid b_question_id questionId] (bookmarks db) in
  (try_catch
     (throw_if_error (error r) (Return true))
     (fun e => Throw e),
   set_bookmarks db rows).

(** *** Password reset *)

Fixpoint set_password (id : uuid) (password : string) (l : list (uuid * string))
  : list (uuid * string) :=
  match l with
  | [] => [(id, password)]
  | (i, p) :: rest =>
      if String.eqb i id then (i, password) :: rest
      else (i, p) :: set_password id password rest
  end.

Fixpoint password_of (id : uuid) (l : list (uuid * string)) : option string :=
  match l with
  | [] => None
  | (i, p) :: rest => if String.eqb i id then Some p else password_of id rest
  end.

(** [supabase.auth.admin.updateUserById(id, { password })].  The identity
    service is external: whether it accepts the call is the environment's
    answer [refusal]; an accepted call stores the password. *)
Definition auth_admin_updateUserById (refusal : option PgError) (db : DB)
  (id : uuid) (password : string) : option PgError * DB :=
  match refusal with
  | Some e => (Some e, db)
  | None =>
      (None,
       {| profiles := profiles db;
          questions := questions db;
          study_guides := study_guides db;
          user_progress_rows := user_progress_rows db;
          quiz_sessions := quiz_sessions db;
          bookmarks := bookmarks db;
          auth_passwords := set_password id password (auth_passwords db) |})
  end.

Section ResetPassword.

(** The remote procedure [verify_security_answer(p_user_id, p_answer)]:
    the client calls it, the schema file does not declare it. *)
Variable rpc_verify_security_answer : DB -> uuid -> string -> response bool.

(** [api.auth.resetPassword(email, securityAnswer, newPassword)] *)
Definition auth_resetPassword (fault refusal : option PgError) (db : DB)
  (email securityAnswer newPassword : string) : outcome bool * DB :=
  let r := from (profiles db)
             |> where_ (eq_text p_email (Js.toLowerCase email))
             |> await fault
             |> select_columns (fun p => (p_id p, p_security_answer p))
             |> single in
  match error r, data r with
  | None, Some found =>
      let isValid :=
        data (rpc_verify_security_answer db (fst found) (Js.toLowerCase securityAnswer)) in
      match isValid with
      | Some true =>
          let '(updateError, db') :=
            auth_admin_updateUserById refusal db (fst found) newPassword in
          (try_catch
             (throw_if_error updateError (Return true))
             (fun e => Throw e),
           db')
      | _ => (Throw (ThrownError "Invalid security answer"), db)
      end
  | _, _ => (Throw (ThrownError "User not found"), db)
  end.

End ResetPassword.

(** Modelled from the spec: the database function [verify_security_answer],
    which the client calls and no source file defines.  The spec has the
    supplied answer verified "case-insensitively against the stored security
    answer" of the profile. *)
Definition verify_security_answer (db : DB) (p_user_id : uuid) (p_answer : string)
  : response bool :=
  ok (existsb
        (fun p =>
           String.eqb (p_id p) p_user_id &&
           match p_security_answer p with
           | Some stored => String.eqb (Js.toLowerCase stored) (Js.toLowerCase p_answer)
           | None => false
           end)
        (profiles db)).

(** *** Error kinds

    The spec names kinds of failure; the client throws the error object of
    the response, or [new Error(message)].  This reads a thrown value under
    the spec's names. *)
Inductive error_kind : Type :=
| ValidationError
| AuthError
| NotFoundError
| ConflictError
| BackendError.

Definition error_kind_of (t : thrown) : error_kind :=
  match t with
  | ThrownPg e =>
      if String.eqb (code e) "23505" then ConflictError
      else if String.eqb (code e) "PGRST116" then NotFoundError
      else BackendError
  | ThrownError msg =>
      if String.eqb msg "User not found" then NotFoundError
      else if String.eqb msg "Invalid security answer" then AuthError
      else BackendError
  end.

(** *** Properties of rows and results used in the statements *)

Definition is_progress_of (userId : uuid) (year : Z) (r : user_progress) : Prop :=
  up_user_id r = userId /\ up_year r = year.

Definition count_progress (db : DB) (userId : uuid) (year : Z) : nat :=
  List.length (filter (same_user_year userId year) (user_progress_rows db)).

(** The six JSON fields of a row are those of a progress document, an
    omitted (or falsy) field read as its empty container. *)
Definition holds_document (r : user_progress) (d : progress_input) : Prop :=
  progress_data r = Js.or_else (in_progress_data d) Js.empty_object /\
  exam_readiness r = Js.or_else (in_exam_readiness d) Js.empty_object /\
  statistics r = Js.or_else (in_statistics d) Js.empty_object /\
  bookmarks_json r = Js.or_else (in_bookmarks d) Js.empty_array /\
  weak_areas r = Js.or_else (in_weak_areas d) Js.empty_array /\
  streak_data r = Js.or_else (in_streak_data d) Js.empty_object.

(** What the filters of [questions.getAll] ask of a row, each filter read as
    the client reads it: a truthy argument restricts, any other does not. *)
Definition question_matches (year : option Z) (section difficulty : option string)
  (q : question) : bool :=
  (if Js.truthy_num year
   then match year with Some y => q_year q =? y | None => true end
   else true) &&
  (if Js.truthy_str section
   then match section, q_section q with
        | Some s, Some c => String.eqb c s
        | _, _ => false
        end
   else true) &&
  (if Js.truthy_str difficulty
   then match difficulty, q_difficulty q with
        | Some d, Some c => String.eqb c d
        | _, _ => false
        end
   else true).

(** The same with every supplied (non-null) argument taken as a filter. *)
Definition question_satisfies (year : option Z) (section difficulty : option string)
  (q : question) : bool :=
  match year with Some y => q_year q =? y | None => true end &&
  match section with
  | Some s => match q_section q with Some c => String.eqb c s | None => false end
  | None => true
  end &&
  match difficulty with
  | Some d => match q_difficulty q with Some c => String.eqb c d | None => false end
  | None => true
  end.

(** *** Statements and example databases *)

Definition is_bookmark_of (userId questionId : uuid) (b : bookmark) : Prop :=
  b_user_id b = userId /\ b_question_id b = questionId.

Definition one_bookmark : DB :=
  set_bookmarks empty_db
    [{| b_id := "b1"; b_user_id := "u1"; b_question_id := "q1"; b_year := 2;
        b_created_at := 100 |}].

Definition year_then_section (a b : question) : Prop :=
  q_year a < q_year b \/
  (q_year a = q_year b /\ text_le_nulls_last (q_section a) (q_section b) = true).

(** The claim as the spec words it: every supplied argument is a filter. *)
Definition getAll_filters_every_supplied_argument
  (db : DB) (year : option Z) (section difficulty : option string) : Prop :=
  exists l,
    questions_getAll None db year section difficulty = Return l /\
    Permutation l (filter (question_satisfies year section difficulty) (questions db)) /\
    Sorted year_then_section l.

Definition one_question : DB :=
  {| profiles := [];
     questions :=
       [{| q_id := "q1"; q_year := 1; q_section := Some "A";
           q_difficulty := Some "easy"; q_question_text := "text";
           q_options := Js.Arr [Js.Str "a"; Js.Str "b"]; q_correct_answer := "a";
           q_explanation := None; q_created_at := 0; q_updated_at := 0 |}];
     study_guides := [];
     user_progress_rows := [];
     quiz_sessions := [];
     bookmarks := [];
     auth_passwords := [] |}.

(** The row filter of the profile lookup. *)
Definition stores_email (e : string) (p : profile) : bool :=
  match p_email p with
  | Some s => String.eqb s e
  | None => false
  end.

(** The stored answer of a profile equals the supplied one up to case. *)
Definition answer_matches (p : profile) (answer : string) : bool :=
  match p_security_answer p with
  | Some stored => String.eqb (Js.toLowerCase stored) (Js.toLowerCase answer)
  | None => false
  end.

(** The claim as the spec words it: a profile matches when its stored email
    is the supplied one. *)
Definition resetPassword_by_supplied_email
  (db : DB) (email answer newPassword : string) : Prop :=
  let run := auth_resetPassword verify_security_answer None None db
               email answer newPassword in
  ((forall p, In p (profiles db) -> p_email p <> Some email) ->
   exists t, fst run = Throw t /\ error_kind_of t = NotFoundError) /\
  (forall p, In p (profiles db) -> p_email p = Some email ->
     (answer_matches p answer = false ->
      exists t, fst run = Throw t /\ error_kind_of t = AuthError) /\
     (answer_matches p answer = true ->
      fst run = Return true /\
      password_of (p_id p) (auth_passwords (snd run)) = Some newPassword)).

Definition profile_with (id : uuid) (email answer : string) : profile :=
  {| p_id := id;
     p_email := Some email;
     p_full_name := None;
     p_first_name := None;
     p_last_name := None;
     p_selected_year := Some 1;
     p_security_question := Some "Favourite colour?";
     p_security_answer := Some answer;
     p_created_at := 0;
     p_updated_at := 0 |}.

Definition with_profiles (ps : list profile) : DB :=
  {| profiles := ps;
     questions := [];
     study_guides := [];
     user_progress_rows := [];
     quiz_sessions := [];
     bookmarks := [];
     auth_passwords := [] |}.



Definition answered_q1 (how : string) : progress_input :=
  {| in_progress_data := Some (Js.Obj [("q1", Js.Str how)]);
     in_exam_readiness := None;
     in_statistics := None;
     in_bookmarks := None;
     in_weak_areas := None;
     in_streak_data := None |}.

Definition with_statistics : progress_input :=
  {| in_progress_data := Some (Js.Obj [("q0", Js.Str "wrong")]);
     in_exam_readiness := None;
     in_statistics := Some (Js.Obj [("answered", Js.Num 5)]);
     in_bookmarks := None;
     in_weak_areas := None;
     in_streak_data := None |}.

(** ** The rest of the schema's functions and of the client *)

(** [SELECT * INTO record FROM t WHERE ...; IF FOUND]: the first row that
    satisfies the condition, if any. *)
Definition select_into {R : Type} (cond : R -> bool) (rows : list R) : option R :=
  find cond rows.

(** The database function [public.get_user_progress]; the function returns
    JSONB, so its [RETURN '{}'] is the empty object. *)
Definition get_user_progress (rows : list user_progress) (p_user_id : uuid) (p_year : Z)
  : Js.value :=
  match select_into (same_user_year p_user_id p_year) rows with
  | Some progress_record => progress_data progress_record
  | None => Js.Obj []
  end.

(** The database function [public.get_user_statistics].  The arguments of
    [jsonb_build_object] are key, value, key, value, ...; in the [ELSE]
    branch the values are the text literals ['{}'] and ['[]'], which
    [jsonb_build_object] turns into JSON strings.  The keys are kept in the
    order of the call. *)
Definition get_user_statistics (rows : list user_progress) (p_user_id : uuid) (p_year : Z)
  : Js.value :=
  match select_into (same_user_year p_user_id p_year) rows with
  | Some stats_record =>
      Js.Obj [("exam_readiness", exam_readiness stats_record);
              ("statistics", statistics stats_record);
              ("bookmarks", bookmarks_json stats_record);
              ("weak_areas", weak_areas stats_record);
              ("streak_data", streak_data stats_record)]
  | None =>
      Js.Obj [("exam_readiness", Js.Str "{}");
              ("statistics", Js.Str "{}");
              ("bookmarks", Js.Str "[]");
              ("weak_areas", Js.Str "[]");
              ("streak_data", Js.Str "{}")]
  end.

(** [const STORAGE_KEYS] *)
Definition STORAGE_KEYS_selectedYear : string := "tradebench_selected_year".
Definition STORAGE_KEYS_userProgress : string := "tradebench_user_progress".

(** A number in a template literal: its decimal digits, with a sign when
    negative. *)
Definition number_to_string (n : Z) : string :=
  DecimalString.NilEmpty.string_of_int (Z.to_int n).

(** [function progressKey(year)] *)
Definition progressKey (year : option Z) : string :=
  match year with
  | Some y =>
      if Js.truthy (Js.Num y)
      then "tradebench_user_progress_y" ++ number_to_string y
      else STORAGE_KEYS_userProgress
  | None => STORAGE_KEYS_userProgress
  end.

(** [api.questions.getByYear(year)] *)
Definition questions_getByYear (fault : option PgError) (db : DB) (year : option Z)
  : outcome (list question) :=
  questions_getAll fault db year None None.

(** [api.questions.getBySection(year, section)] *)
Definition questions_getBySection (fault : option PgError) (db : DB)
  (year : option Z) (section : option string) : outcome (list question) :=
  questions_getAll fault db year section None.

(** [api.questions.getById(id)]; the result [None] is [null]. *)
Definition questions_getById (fault : option PgError) (db : DB) (id : uuid)
  : outcome (option question) :=
  try_catch
    (let r := from (questions db)
                |> where_ (eq_uuid q_id id)
                |> await fault
                |> single in
     throw_if_error (error r) (Return (data r)))
    (fun _ => Return None).

(** [api.studyGuides.getByYear(year)] *)
Definition studyGuides_getByYear (fault : option PgError) (db : DB) (year : option Z)
  : outcome (list study_guide) :=
  studyGuides_getAll fault db year None.

(** [api.studyGuides.getBySection(year, section)] *)
Definition studyGuides_getBySection (fault : option PgError) (db : DB)
  (year : option Z) (section : option string) : outcome (list study_guide) :=
  studyGuides_getAll fault db year section.

(** [api.studyGuides.getById(id)] *)
Definition studyGuides_getById (fault : option PgError) (db : DB) (id : uuid)
  : outcome (option study_guide) :=
  try_catch
    (let r := from (study_guides db)
                |> where_ (eq_uuid g_id id)
                |> await fault
                |> single in
     throw_if_error (error r) (Return (data r)))
    (fun _ => Return None).

(** [.update(values).eq(...).select().single()]: [UPDATE ... WHERE ...
    RETURNING *] answered as one object.  When the statement returns no row,
    or more than one, the answer is the error PGRST116 and the statement is
    rolled back. *)
Definition update_single {R : Type} (fault : option PgError) (cond : R -> bool)
  (set : R -> R) (rows : list R) : response R * list R :=
  match fault with
  | Some e => (failed e, rows)
  | None =>
      match filter cond rows with
      | [r] => (ok (set r), update_where cond set rows)
      | _ => (failed PGRST116, rows)
      end
  end.

(** The values of [userProgress.reset], written over a row; the trigger
    [handle_user_progress_updated_at] sets [updated_at]. *)
Definition cleared (now : timestamptz) (old : user_progress) : user_progress :=
  {| up_id := up_id old;
     up_user_id := up_user_id old;
     up_year := up_year old;
     progress_data := Js.empty_object;
     exam_readiness := Js.empty_object;
     statistics := Js.empty_object;
     bookmarks_json := Js.empty_array;
     weak_areas := Js.empty_array;
     streak_data := Js.empty_object;
     up_created_at := up_created_at old;
     up_updated_at := Some now |}.

(** [api.userProgress.reset(userId, year)] *)
Definition userProgress_reset (fault : option PgError) (now : timestamptz) (db : DB)
  (userId : uuid) (year : Z) : outcome (option user_progress) * DB :=
  let '(r, rows) :=
    update_single fault
      (keeps [eq_uuid up_user_id userId; eq_integer up_year year])
      (cleared now) (user_progress_rows db) in
  (try_catch
     (throw_if_error (error r) (Return (data r)))
     (fun e => Throw e),
   set_user_progress db rows).

(** The columns of the question embedded in a bookmark by
    [bookmarks.getAll]. *)
Record embedded_question : Type := mkEmbeddedQuestion {
  eq_id : uuid;
  eq_year : Z;
  eq_section : option string;
  eq_question_text : string;
  eq_options : Js.value;
  eq_correct_answer : string;
  eq_difficulty : option string
}.

(** A row of [select('*, questions (...)')]: the bookmark and, under the key
    [questions], the question its [question_id] refers to ([null] when there
    is none). *)
Record bookmark_with_question : Type := mkBookmarkWithQuestion {
  bq_bookmark : bookmark;
  bq_questions : option embedded_question
}.

Definition embed_question (qs : list question) (b : bookmark) : bookmark_with_question :=
  {| bq_bookmark := b;
     bq_questions :=
       option_map
         (fun q => {| eq_id := q_id q;
                      eq_year := q_year q;
                      eq_section := q_section q;
                      eq_question_text := q_question_text q;
                      eq_options := q_options q;
                      eq_correct_answer := q_correct_answer q;
                      eq_difficulty := q_difficulty q |})
         (find (fun q => String.eqb (q_id q) (b_question_id b)) qs) |}.

(** [api.bookmarks.getAll(userId, year)] *)
Definition bookmarks_getAll (fault : option PgError) (db : DB) (userId : uuid) (year : Z)
  : outcome (list bookmark_with_question) :=
  try_catch
    (let r := from (bookmarks db)
                |> where_ (eq_uuid b_user_id userId)
                |> where_ (eq_integer b_year year)
                |> await fault
                |> select_columns (embed_question (questions db)) in
     throw_if_error (error r) (Return (or_empty (data r))))
    (fun _ => Return []).

Definition set_quiz_sessions (db : DB) (rows : list quiz_session) : DB :=
  {| profiles := profiles db;
     questions := questions db;
     study_guides := study_guides db;
     user_progress_rows := user_progress_rows db;
     quiz_sessions := rows;
     bookmarks := bookmarks db;
     auth_passwords := auth_passwords db |}.

(** [.insert({ user_id, year, quiz_mode, questions, total_questions })] on
    [quiz_sessions]: the other columns take their defaults; the table has no
    unique constraint besides the primary key. *)
Definition insert_quiz_session (fault : option PgError) (now : timestamptz)
  (userId : uuid) (year : Z) (quizMode : string) (snapshot : Js.value) (total : Z)
  (rows : list quiz_session) : response (list quiz_session) * list quiz_session :=
  match fault with
  | Some e => (failed e, rows)
  | None =>
      let row := {| qs_id := uuid_generate_v4 (map qs_id rows);
                    qs_user_id := userId;
                    qs_year := year;
                    qs_quiz_mode := quizMode;
                    qs_questions := snapshot;
                    qs_answers := Js.empty_object;
                    qs_score := 0;
                    qs_total_questions := total;
                    qs_time_taken := 0;
                    completed_at := None;
                    qs_created_at := now |} in
      (ok [row], rows ++ [row])
  end.

(** [api.quizSessions.create(userId, year, quizMode, questions)], for an
    array [questions]. *)
Definition quizSessions_create (fault : option PgError) (now : timestamptz) (db : DB)
  (userId : uuid) (year : Z) (quizMode : string) (questions_arg : list Js.value)
  : outcome (option quiz_session) * DB :=
  let '(written, rows) :=
    insert_quiz_session fault now userId year quizMode (Js.Arr questions_arg)
      (Z.of_nat (List.length questions_arg)) (quiz_sessions db) in
  let r := single written in
  (try_catch
     (throw_if_error (error r) (Return (data r)))
     (fun e => Throw e),
   set_quiz_sessions db rows).

(** The values of [quizSessions.update], written over a row;
    [new Date().toISOString()] is the time [now] of the call. *)
Definition completed (now : timestamptz) (answers : Js.value) (score timeTaken : Z)
  (old : quiz_session) : quiz_session :=
  {| qs_id := qs_id old;
     qs_user_id := qs_user_id old;
     qs_year := qs_year old;
     qs_quiz_mode := qs_quiz_mode old;
     qs_questions := qs_questions old;
     qs_answers := answers;
     qs_score := score;
     qs_total_questions := qs_total_questions old;
     qs_time_taken := timeTaken;
     completed_at := Some now;
     qs_created_at := qs_created_at old |}.

(** [api.quizSessions.update(sessionId, answers, score, timeTaken)] *)
Definition quizSessions_update (fault : option PgError) (now : timestamptz) (db : DB)
  (sessionId : uuid) (answers : Js.value) (score timeTaken : Z)
  : outcome (option quiz_session) * DB :=
  let '(r, rows) :=
    update_single fault (keeps [eq_uuid qs_id sessionId])
      (completed now answers score timeTaken) (quiz_sessions db) in
  (try_catch
     (throw_if_error (error r) (Return (data r)))
     (fun e => Throw e),
   set_quiz_sessions db rows).

(** *** Constraints of the schema, as properties of a table *)

Definition user_year_key (r : user_progress) : uuid * Z := (up_user_id r, up_year r).

(** [UNIQUE(user_id, year)] and the primary key of [user_progress]. *)
Definition user_progress_constraints (rows : list user_progress) : Prop :=
  NoDup (map user_year_key rows) /\ NoDup (ids_in_use rows).

Definition bookmark_key (b : bookmark) : uuid * uuid := (b_user_id b, b_question_id b).

(** [UNIQUE(user_id, question_id)] and the primary key of [bookmarks]. *)
Definition bookmarks_constraints (rows : list bookmark) : Prop :=
  NoDup (map bookmark_key rows) /\ NoDup (map b_id rows).

(** What the filters of [studyGuides.getAll] ask of a row. *)
Definition study_guide_matches (year : option Z) (section : option string)
  (g : study_guide) : bool :=
  (if Js.truthy_num year
   then match year with Some y => g_year g =? y | None => true end
   else true) &&
  (if Js.truthy_str section
   then match section, g_section g with
        | Some s, Some c => String.eqb c s
        | _, _ => false
        end
   else true).

Definition guide_year_then_section (a b : study_guide) : Prop :=
  g_year a < g_year b \/
  (g_year a = g_year b /\ text_le_nulls_last (g_section a) (g_section b) = true).

(** *** The identity service ([supabase.auth]) and [api.auth] *)

(** The user object of the identity service, with the metadata the client
    reads from it. *)
Record auth_user : Type := mkAuthUser {
  au_id : uuid;
  au_email : option string;
  au_full_name : option string;
  au_first_name : option string;
  au_last_name : option string;
  au_avatar_url : option string
}.

Record auth_session : Type := mkAuthSession {
  access_token : string;
  session_user : auth_user
}.

(** What [supabase.auth.signUp] and [signInWithPassword] resolve to:
    [{ data: { user, session }, error }].  The identity service is external;
    its answer is an input of the model. *)
Record auth_answer : Type := mkAuthAnswer {
  answer_user : option auth_user;
  answer_session : option auth_session;
  answer_error : option PgError
}.

(** What [api.auth.signUp] returns. *)
Record sign_up_result : Type := mkSignUpResult {
  su_user : option auth_user;
  su_session : option auth_session;
  needsVerification : bool
}.

(** What [api.auth.signIn] returns. *)
Record sign_in_result : Type := mkSignInResult {
  si_user : option auth_user;
  si_session : option auth_session
}.

Definition is_some {A : Type} (x : option A) : bool :=
  match x with Some _ => true | None => false end.

(** [api.auth.signUp(email, password, options)].  The arguments go to the
    identity service and to nothing else; what the function does depends on
    them only through the answer of the service. *)
Definition auth_signUp (answer : auth_answer) : outcome sign_up_result :=
  try_catch
    (throw_if_error (answer_error answer)
       (if is_some (answer_user answer) && negb (is_some (answer_session answer))
        then Return (mkSignUpResult (answer_user answer) None true)
        else Return (mkSignUpResult (answer_user answer) (answer_session answer) false)))
    (fun e => Throw e).

(** [api.auth.signIn(email, password)], likewise. *)
Definition auth_signIn (answer : auth_answer) : outcome sign_in_result :=
  try_catch
    (throw_if_error (answer_error answer)
       (Return (mkSignInResult (answer_user answer) (answer_session answer))))
    (fun e => Throw e).

(** [api.auth.signOut()]; the answer of the service is its error, if any. *)
Definition auth_signOut (answer : option PgError) : outcome bool :=
  try_catch (throw_if_error answer (Return true)) (fun e => Throw e).

(** [api.auth.getUser()]; the result [None] is [null]. *)
Definition auth_getUser (answer : auth_answer) : outcome (option auth_user) :=
  try_catch
    (throw_if_error (answer_error answer) (Return (answer_user answer)))
    (fun _ => Return None).

(** *** [api.auth.updateMe] *)







(** ** The auth context ([lib/AuthContext-old.jsx]) *)

(** The [user] object the context builds. *)
Record user_obj : Type := mkUserObj {
  uo_id : uuid;
  uo_email : option string;
  uo_full_name : option string;
  uo_first_name : option string;
  uo_last_name : option string;
  uo_profile_image_url : option string;
  uo_selected_year : Z;
  uo_security_question : option string;
  uo_role : string
}.

Record auth_error : Type := mkAuthError {
  error_type : string;
  error_message : string
}.

(** The [session] cell holds the user of the identity service (after
    [fetchUser]) or the session of a token refresh. *)
Inductive session_cell : Type :=
| SessionOfUser (u : auth_user)
| SessionOfToken (s : auth_session).

(** The five [useState] cells of [AuthProvider]. *)
Record auth_context : Type := mkAuthContext {
  user : option user_obj;
  session : option session_cell;
  isAuthenticated : bool;
  isLoadingAuth : bool;
  authError : option auth_error
}.

(** The cells as [useState] initialises them. *)
Definition initial_context : auth_context :=
  {| user := None; session := None; isAuthenticated := false;
     isLoadingAuth := true; authError := None |}.

(** What the operations of the context return:
    [{ success: true, user }] (or [{ success: true }]),
    [{ success: true, needsVerification: true }],
    [{ success: false, error }]. *)
Inductive auth_result : Type :=
| Succeeded (u : option auth_user)
| NeedsVerification
| Failed (error : string).

(** [error.message] *)
Definition message_of (t : thrown) : string :=
  match t with
  | ThrownPg e => message e
  | ThrownError msg => msg
  end.

(** [a || b] on strings that may be undefined. *)
Definition or_string (a b : option string) : option string :=
  match a with
  | Some s => if Js.truthy (Js.Str s) then a else b
  | None => b
  end.

Definition signed_out (ctx : auth_context) : auth_context :=
  {| user := None; session := None; isAuthenticated := false;
     isLoadingAuth := isLoadingAuth ctx; authError := None |}.

Definition set_authError (e : option auth_error) (ctx : auth_context) : auth_context :=
  {| user := user ctx; session := session ctx; isAuthenticated := isAuthenticated ctx;
     isLoadingAuth := isLoadingAuth ctx; authError := e |}.

Definition set_isLoadingAuth (b : bool) (ctx : auth_context) : auth_context :=
  {| user := user ctx; session := session ctx; isAuthenticated := isAuthenticated ctx;
     isLoadingAuth := b; authError := authError ctx |}.

Definition set_session (s : option session_cell) (ctx : auth_context) : auth_context :=
  {| user := user ctx; session := s; isAuthenticated := isAuthenticated ctx;
     isLoadingAuth := isLoadingAuth ctx; authError := authError ctx |}.

(** [let profileData = {}; try { ...; if (profile) profileData = profile }
    catch { }]: the row read, if the read gave one. *)
Definition profileData_of (profile_read : outcome (response profile)) : option profile :=
  match profile_read with
  | Return r => data r
  | Throw _ => None
  end.

(** [profileData.column], undefined when [profileData] is [{}]. *)
Definition of_profile {A : Type} (profileData : option profile)
  (col : profile -> option A) : option A :=
  match profileData with
  | Some p => col p
  | None => None
  end.

(** [const userObj = { ... }] in [fetchUser]. *)
Definition userObj_of (userData : auth_user) (profileData : option profile) : user_obj :=
  {| uo_id := au_id userData;
     uo_email := au_email userData;
     uo_full_name :=
       or_string
         (or_string (of_profile profileData p_full_name) (au_full_name userData))
         (au_email userData);
     uo_first_name :=
       or_string (of_profile profileData p_first_name) (au_first_name userData);
     uo_last_name :=
       or_string (of_profile profileData p_last_name) (au_last_name userData);
     uo_profile_image_url := au_avatar_url userData;
     uo_selected_year :=
       match of_profile profileData p_selected_year with
       | Some y => if Js.truthy (Js.Num y) then y else 1
       | None => 1
       end;
     uo_security_question := of_profile profileData p_security_question;
     uo_role := "user" |}.

(** [fetchUser].  [who] is the answer of the identity service to [getUser];
    [profile_read] is how the read of the profile row inside the inner
    [try] ends: with a response, or with a throw, which the inner [catch]
    swallows. *)
Definition fetchUser (who : auth_answer) (profile_read : outcome (response profile))
  (ctx : auth_context) : option user_obj * auth_context :=
  match auth_getUser who with
  | Return (Some userData) =>
      let userObj := userObj_of userData (profileData_of profile_read) in
      (Some userObj,
       {| user := Some userObj;
          session := Some (SessionOfUser userData);
          isAuthenticated := true;
          isLoadingAuth := false;
          authError := None |})
  | _ => (None, set_isLoadingAuth false (signed_out ctx))
  end.

(** [signIn(email, password)] of the context; [answer] is the answer of the
    identity service to the sign-in, [who] and [profile_read] are those of
    the [fetchUser] that follows. *)
Definition context_signIn (answer who : auth_answer)
  (profile_read : outcome (response profile)) (ctx : auth_context)
  : auth_result * auth_context :=
  let ctx := set_authError None ctx in
  match auth_signIn answer with
  | Return result =>
      if is_some (si_session result)
      then (Succeeded (si_user result), snd (fetchUser who profile_read ctx))
      else (Failed "Sign in failed",
            set_authError (Some (mkAuthError "signin" "Sign in failed")) ctx)
  | Throw e =>
      (Failed (message_of e),
       set_authError (Some (mkAuthError "signin" (message_of e))) ctx)
  end.

(** [signUp(email, password, userData)] of the context. *)
Definition context_signUp (answer who : auth_answer)
  (profile_read : outcome (response profile)) (ctx : auth_context)
  : auth_result * auth_context :=
  let ctx := set_authError None ctx in
  match auth_signUp answer with
  | Return result =>
      if needsVerification result then (NeedsVerification, ctx)
      else if is_some (su_session result)
      then (Succeeded (su_user result), snd (fetchUser who profile_read ctx))
      else (Failed "Sign up failed",
            set_authError (Some (mkAuthError "signup" "Sign up failed")) ctx)
  | Throw e =>
      (Failed (message_of e),
       set_authError (Some (mkAuthError "signup" (message_of e))) ctx)
  end.

(** [signOut()] of the context. *)
Definition context_signOut (answer : option PgError) (ctx : auth_context)
  : auth_result * auth_context :=
  match auth_signOut answer with
  | Return _ => (Succeeded None, signed_out ctx)
  | Throw e => (Failed (message_of e), ctx)
  end.

(** [resetPassword(email, securityAnswer, newPassword)] of the context. *)
Definition context_resetPassword (rpc : DB -> uuid -> string -> response bool)
  (fault refusal : option PgError) (db : DB) (email securityAnswer newPassword : string)
  (ctx : auth_context) : auth_result * auth_context * DB :=
  let ctx := set_authError None ctx in
  match auth_resetPassword rpc fault refusal db email securityAnswer newPassword with
  | (Return _, db') => (Succeeded None, ctx, db')
  | (Throw e, db') =>
      (Failed (message_of e),
       set_authError (Some (mkAuthError "reset" (message_of e))) ctx, db')
  end.

(** [clearError()] *)
Definition clearError (ctx : auth_context) : auth_context := set_authError None ctx.

(** The listener registered with [onAuthStateChange]. *)
Definition on_auth_state_change (event : string) (s : option auth_session)
  (who : auth_answer) (profile_read : outcome (response profile)) (ctx : auth_context)
  : auth_context :=
  if String.eqb event "SIGNED_IN" && is_some s
  then snd (fetchUser who profile_read ctx)
  else if String.eqb event "SIGNED_OUT" then signed_out ctx
  else if String.eqb event "TOKEN_REFRESHED"
       then set_session (option_map SessionOfToken s) ctx
       else ctx.

(** One thing that happens to the context, with the answers of the services
    it calls. *)
Inductive context_event : Type :=
| FetchUser (who : auth_answer) (profile_read : outcome (response profile))
| SignIn (answer who : auth_answer) (profile_read : outcome (response profile))
| SignUp (answer who : auth_answer) (profile_read : outcome (response profile))
| SignOut (answer : option PgError)
| ResetPassword (fault refusal : option PgError) (email securityAnswer newPassword : string)
| ClearError
| AuthStateChange (event : string) (s : option auth_session) (who : auth_answer)
    (profile_read : outcome (response profile)).

Definition context_step (rpc : DB -> uuid -> string -> response bool)
  (ev : context_event) (st : auth_context * DB) : auth_context * DB :=
  let '(ctx, db) := st in
  match ev with
  | FetchUser who profile_read => (snd (fetchUser who profile_read ctx), db)
  | SignIn answer who profile_read => (snd (context_signIn answer who profile_read ctx), db)
  | SignUp answer who profile_read => (snd (context_signUp answer who profile_read ctx), db)
  | SignOut answer => (snd (context_signOut answer ctx), db)
  | ResetPassword fault refusal email securityAnswer newPassword =>
      let '(_, ctx', db') :=
        context_resetPassword rpc fault refusal db email securityAnswer newPassword ctx in
      (ctx', db')
  | ClearError => (clearError ctx, db)
  | AuthStateChange event s who profile_read =>
      (on_auth_state_change event s who profile_read ctx, db)
  end.

Definition context_run (rpc : DB -> uuid -> string -> response bool)
  (evs : list context_event) (st : auth_context * DB) : auth_context * DB :=
  fold_left (fun st ev => context_step rpc ev st) evs st.

(** *** More example databases and row filters *)

Definition one_progress_row : DB :=
  snd (userProgress_update None 100 empty_db "u1" 2 with_statistics).

Definition of_user_year (userId : uuid) (year : Z) (b : bookmark) : bool :=
  String.eqb (b_user_id b) userId && (b_year b =? year).

Definition has_id (sessionId : uuid) (s : quiz_session) : bool :=
  String.eqb (qs_id s) sessionId.

Definition session_of (id userId : uuid) (year : Z) (done : option timestamptz)
  : quiz_session :=
  {| qs_id := id;
     qs_user_id := userId;
     qs_year := year;
     qs_quiz_mode := "practice";
     qs_questions := Js.Arr [Js.Str "q1"];
     qs_answers := Js.Obj [];
     qs_score := 0;
     qs_total_questions := 1;
     qs_time_taken := 0;
     completed_at := done;
     qs_created_at := 10 |}.

(** Sessions of "u1" in year 2: completed at 50, completed at 80, in
    progress; and a completed session of "u2". *)
Definition some_history : DB :=
  set_quiz_sessions empty_db
    [session_of "s1" "u1" 2 (Some 50);
     session_of "s2" "u1" 2 (Some 80);
     session_of "s3" "u1" 2 None;
     session_of "s4" "u2" 2 (Some 60)].

(** The request of [getHistory], with a filter [completed] in the place of
    the one on [completed_at]. *)
Definition history_request (completed : row_filter quiz_session) (db : DB)
  (userId : uuid) (year : Z) (n : nat) : response (list quiz_session) :=
  from (quiz_sessions db)
    |> where_ (eq_uuid qs_user_id userId)
    |> where_ (eq_integer qs_year year)
    |> where_ completed
    |> order completed_at_desc
    |> limit n
    |> await None.

(** * Theorems *)

(** ** The request model *)

Section QueryFacts.

Context {R : Type}.
Implicit Types (le : R -> R -> bool) (l : list R) (fs : list (row_filter R)).

Lemma filter_nothing (f : R -> bool) l :
  (forall r, In r l -> f r = false) -> filter f l = [].
Proof.
  induction l as [|x l IH]; intros H; simpl; [reflexivity|].
  rewrite (H x (or_introl eq_refl)). apply IH.
  intros r Hr. apply H. now right.
Qed.

Lemma filter_everything (f : R -> bool) l :
  (forall r, In r l -> f r = true) -> filter f l = l.
Proof.
  induction l as [|x l IH]; intros H; simpl; [reflexivity|].
  rewrite (H x (or_introl eq_refl)). f_equal. apply IH.
  intros r Hr. apply H. now right.
Qed.

Lemma insert_sorted_perm le x l : Permutation (insert_sorted le x l) (x :: l).
Proof.
  induction l as [|y l IH]; simpl; [apply Permutation_refl|].
  destruct (le x y); [apply Permutation_refl|].
  eapply perm_trans; [apply perm_skip, IH | apply perm_swap].
Qed.

Lemma sort_by_perm le l : Permutation (sort_by le l) l.
Proof.
  induction l as [|x l IH]; simpl; [constructor|].
  eapply perm_trans; [apply insert_sorted_perm | now apply perm_skip].
Qed.

Section Total.

Variable le : R -> R -> bool.
Hypothesis le_total : forall a b, le a b = true \/ le b a = true.

Lemma insert_sorted_hd x y l :
  le y x = true ->
  HdRel (fun a b => le a b = true) y l ->
  HdRel (fun a b => le a b = true) y (insert_sorted le x l).
Proof.
  intros Hyx Hhd. destruct l as [|z l]; simpl.
  - now constructor.
  - destruct (le x z); constructor; [exact Hyx|].
    now inversion Hhd.
Qed.

Lemma insert_sorted_sorted x l :
  Sorted (fun a b => le a b = true) l ->
  Sorted (fun a b => le a b = true) (insert_sorted le x l).
Proof.
  induction 1 as [|y l Hs IH Hhd]; simpl.
  - repeat constructor.
  - destruct (le x y) eqn:Hxy.
    + constructor; [now constructor | now constructor].
    + constructor; [exact IH|].
      apply insert_sorted_hd; [|exact Hhd].
      destruct (le_total x y) as [H|H]; [congruence | exact H].
Qed.

Lemma sort_by_sorted l : Sorted (fun a b => le a b = true) (sort_by le l).
Proof.
  induction l as [|x l IH]; simpl; [constructor|].
  now apply insert_sorted_sorted.
Qed.

End Total.

(** A request with no (or [null]) [data] and an error makes every read of
    the reference data and of the history return the empty list. *)
Lemma swallow (e : option PgError) l :
  try_catch (throw_if_error e (Return l)) (fun _ => Return []) =
  Return (match e with Some _ => [] | None => l end).
Proof. now destruct e. Qed.

Lemma await_fault (e : PgError) (q : query R) : await (Some e) q = failed e.
Proof. reflexivity. Qed.

End QueryFacts.

(** ** userProgress.get *)

Lemma same_user_year_spec userId year r :
  same_user_year userId year r = true <-> is_progress_of userId year r.
Proof.
  unfold same_user_year, is_progress_of.
  rewrite andb_true_iff, String.eqb_eq, Z.eqb_eq. reflexivity.
Qed.

Lemma progress_filters_keep userId year r :
  keeps [eq_uuid up_user_id userId; eq_integer up_year year] r =
  same_user_year userId year r.
Proof. unfold same_user_year. simpl. now rewrite andb_true_r. Qed.

Lemma progress_lookup db userId year :
  await None
    (from (user_progress_rows db)
       |> where_ (eq_uuid up_user_id userId)
       |> where_ (eq_integer up_year year)) =
  ok (filter (same_user_year userId year) (user_progress_rows db)).
Proof.
  unfold await, where_, from. simpl. unfold ok. f_equal. f_equal.
  apply filter_ext. intros r. apply progress_filters_keep.
Qed.

(** C2. When no [user_progress] row exists for (userId, year) and the read
    itself goes through, [userProgress.get] returns (it does not throw) the
    document that echoes [user_id] and [year] and has every JSON field at its
    empty container: [{}] for progress_data, exam_readiness, statistics and
    streak_data, [[]] for bookmarks and weak_areas. *)
Theorem userProgress_get_default_document (db : DB) (userId : uuid) (year : Z) :
  (forall r, In r (user_progress_rows db) -> ~ is_progress_of userId year r) ->
  exists doc,
    userProgress_get None db userId year = Return (Some doc) /\
    up_user_id doc = userId /\
    up_year doc = year /\
    progress_data doc = Js.Obj [] /\
    exam_readiness doc = Js.Obj [] /\
    statistics doc = Js.Obj [] /\
    bookmarks_json doc = Js.Arr [] /\
    weak_areas doc = Js.Arr [] /\
    streak_data doc = Js.Obj [].
Proof.
  intros Hnone. exists (default_document userId year).
  split; [|repeat split].
  unfold userProgress_get. rewrite progress_lookup.
  rewrite filter_nothing; [reflexivity|].
  intros r Hr. specialize (Hnone r Hr).
  destruct (same_user_year userId year r) eqn:E; [|reflexivity].
  apply same_user_year_spec in E. contradiction.
Qed.

Lemma userProgress_get_default_document_witness :
  (forall r, In r (user_progress_rows empty_db) -> ~ is_progress_of "u1" 2 r) /\
  exists doc,
    userProgress_get None empty_db "u1" 2 = Return (Some doc) /\
    up_user_id doc = "u1" /\
    up_year doc = 2 /\
    progress_data doc = Js.Obj [] /\
    exam_readiness doc = Js.Obj [] /\
    statistics doc = Js.Obj [] /\
    bookmarks_json doc = Js.Arr [] /\
    weak_areas doc = Js.Arr [] /\
    streak_data doc = Js.Obj [].
Proof.
  split.
  - intros r Hr. destruct Hr.
  - apply (userProgress_get_default_document empty_db "u1" 2).
    intros r Hr. destruct Hr.
Defined.

(** C9. When the read of [userProgress.get] fails with an error whose code
    is not the not-found code PGRST116, [get] returns [null]: neither the
    default document nor a thrown error. *)
Theorem userProgress_get_null_on_backend_error
  (db : DB) (userId : uuid) (year : Z) (e : PgError) :
  code e <> "PGRST116" ->
  userProgress_get (Some e) db userId year = Return None.
Proof.
  intros Hcode. unfold userProgress_get. rewrite await_fault. simpl.
  apply String.eqb_neq in Hcode. now rewrite Hcode.
Qed.

Lemma userProgress_get_null_on_backend_error_witness :
  code (mkPgError "08006" "connection failure") <> "PGRST116" /\
  userProgress_get (Some (mkPgError "08006" "connection failure")) empty_db "u1" 2
  = Return None.
Proof.
  split.
  - simpl. discriminate.
  - apply (userProgress_get_null_on_backend_error empty_db "u1" 2).
    simpl. discriminate.
Defined.

(** ** Reads of the reference data *)

(** C7. Whatever the arguments and whatever the backend does,
    [questions.getAll] and [studyGuides.getAll] return a list and never
    throw; when the backend request fails, with any error, the list is
    empty. *)
Theorem reference_reads_never_throw
  (db : DB) (year : option Z) (section difficulty : option string) :
  (forall fault, exists l, questions_getAll fault db year section difficulty = Return l) /\
  (forall e, questions_getAll (Some e) db year section difficulty = Return []) /\
  (forall fault, exists l, studyGuides_getAll fault db year section = Return l) /\
  (forall e, studyGuides_getAll (Some e) db year section = Return []).
Proof.
  split; [|split; [|split]].
  - intros fault. unfold questions_getAll. cbv zeta. rewrite swallow. eauto.
  - intros e. unfold questions_getAll. cbv zeta. now rewrite await_fault.
  - intros fault. unfold studyGuides_getAll. cbv zeta. rewrite swallow. eauto.
  - intros e. unfold studyGuides_getAll. cbv zeta. now rewrite await_fault.
Qed.

(** ** Bookmarks *)

Lemma same_user_question_spec userId questionId b :
  same_user_question userId questionId b = true <-> is_bookmark_of userId questionId b.
Proof.
  unfold same_user_question, is_bookmark_of.
  now rewrite andb_true_iff, !String.eqb_eq.
Qed.

Lemma set_bookmarks_same db : set_bookmarks db (bookmarks db) = db.
Proof. now destruct db. Qed.

Lemma bookmark_filters_keep userId questionId b :
  keeps [eq_uuid b_user_id userId; eq_uuid b_question_id questionId] b =
  same_user_question userId questionId b.
Proof. unfold same_user_question. simpl. now rewrite andb_true_r. Qed.

Lemma bookmarks_remove_run db userId questionId :
  bookmarks_remove None db userId questionId =
  (Return true,
   set_bookmarks db
     (filter (fun b => negb (same_user_question userId questionId b)) (bookmarks db))).
Proof.
  unfold bookmarks_remove, delete_where. cbn [rejected eq_uuid].
  cbn [try_catch throw_if_error error]. do 2 f_equal.
  apply filter_ext. intros b. now rewrite bookmark_filters_keep.
Qed.

Lemma filter_twice {A : Type} (f : A -> bool) (l : list A) :
  filter f (filter f l) = filter f l.
Proof.
  apply filter_everything. intros r Hr. now apply filter_In in Hr.
Qed.

(** C5.  Adding a bookmark for a (userId, questionId) pair that already has
    one fails: the unique-constraint violation of the insert is thrown to the
    caller (a ConflictError) and the table is left as it was.  Removing a
    bookmark that does not exist succeeds and changes nothing, and removing
    twice succeeds both times, the second removal changing nothing. *)
Theorem bookmarks_add_conflict_remove_idempotent
  (db : DB) (now : timestamptz) (userId questionId : uuid) (year : Z) :
  ((exists b, In b (bookmarks db) /\ is_bookmark_of userId questionId b) ->
   exists t,
     bookmarks_add None now db userId questionId year = (Throw t, db) /\
     t = ThrownPg unique_violation /\
     error_kind_of t = ConflictError) /\
  ((forall b, In b (bookmarks db) -> ~ is_bookmark_of userId questionId b) ->
   bookmarks_remove None db userId questionId = (Return true, db)) /\
  (forall first db1,
     bookmarks_remove None db userId questionId = (first, db1) ->
     first = Return true /\
     bookmarks_remove None db1 userId questionId = (Return true, db1)).
Proof.
  split; [|split].
  - intros (b & Hin & Hb). exists (ThrownPg unique_violation).
    split; [|split; reflexivity].
    unfold bookmarks_add, insert_bookmark.
    assert (E : existsb (same_user_question userId questionId) (bookmarks db) = true).
    { apply existsb_exists. exists b. split; [exact Hin|].
      now apply same_user_question_spec. }
    rewrite E. cbn. now rewrite set_bookmarks_same.
  - intros Hnone. rewrite bookmarks_remove_run.
    rewrite filter_everything; [now rewrite set_bookmarks_same|].
    intros b Hb. specialize (Hnone b Hb).
    destruct (same_user_question userId questionId b) eqn:E; [|reflexivity].
    apply same_user_question_spec in E. contradiction.
  - intros first db1 Hrun. rewrite bookmarks_remove_run in Hrun.
    injection Hrun as <- <-. split; [reflexivity|].
    rewrite bookmarks_remove_run. f_equal.
    unfold set_bookmarks. cbn [bookmarks profiles questions study_guides
      user_progress_rows quiz_sessions auth_passwords].
    now rewrite filter_twice.
Qed.

Lemma bookmarks_add_conflict_remove_idempotent_witness :
  (exists b, In b (bookmarks one_bookmark) /\ is_bookmark_of "u1" "q1" b) /\
  (forall b, In b (bookmarks empty_db) -> ~ is_bookmark_of "u1" "q1" b) /\
  (exists t,
     bookmarks_add None 101 one_bookmark "u1" "q1" 2 = (Throw t, one_bookmark) /\
     t = ThrownPg unique_violation /\
     error_kind_of t = ConflictError) /\
  bookmarks_remove None empty_db "u1" "q1" = (Return true, empty_db) /\
  bookmarks_remove None one_bookmark "u1" "q1" = (Return true, empty_db) /\
  bookmarks_remove None empty_db "u1" "q1" = (Return true, empty_db).
Proof.
  assert (H1 : exists b, In b (bookmarks one_bookmark) /\ is_bookmark_of "u1" "q1" b).
  { eexists. split; [left; reflexivity | split; reflexivity]. }
  assert (H0 : forall b, In b (bookmarks empty_db) -> ~ is_bookmark_of "u1" "q1" b).
  { intros b Hb. destruct Hb. }
  split; [exact H1|]. split; [exact H0|].
  split; [|split; [|split]].
  - exact (proj1 (bookmarks_add_conflict_remove_idempotent one_bookmark 101 "u1" "q1" 2) H1).
  - exact (proj1 (proj2 (bookmarks_add_conflict_remove_idempotent empty_db 0 "u1" "q1" 0)) H0).
  - reflexivity.
  - exact (proj2 (proj2 (proj2 (bookmarks_add_conflict_remove_idempotent one_bookmark 0 "u1" "q1" 0))
                    (Return true) empty_db eq_refl)).
Defined.

(** ** Quiz history *)

(** The filter on [completed_at] is rejected by the database, so the request
    of [getHistory] fails for every table, and [getHistory] swallows the
    error. *)
Lemma quizSessions_getHistory_empty fault db userId year limit_arg :
  quizSessions_getHistory fault db userId year limit_arg = Return [].
Proof.
  unfold quizSessions_getHistory. now destruct fault.
Qed.

Lemma in_firstn {A : Type} (n : nat) (l : list A) (x : A) :
  In x (firstn n l) -> In x l.
Proof.
  revert l. induction n as [|n IH]; intros [|y l] Hin; simpl in *; try contradiction.
  destruct Hin as [->|Hin]; [now left | right; now apply IH].
Qed.

Lemma Sorted_firstn {A : Type} (P : A -> A -> Prop) (n : nat) (l : list A) :
  Sorted P l -> Sorted P (firstn n l).
Proof.
  intros Hs. revert n. induction Hs as [|x l Hs IH Hhd]; intros [|n]; simpl;
    try constructor.
  - apply IH.
  - destruct Hhd as [|y l Hxy]; destruct n; simpl; constructor. exact Hxy.
Qed.

Lemma completed_at_desc_total a b :
  completed_at_desc a b = true \/ completed_at_desc b a = true.
Proof.
  unfold completed_at_desc.
  destruct (completed_at a) as [x|], (completed_at b) as [y|]; auto.
  rewrite !Z.leb_le. lia.
Qed.

(** The request of [getHistory] with any filter in the place of the one on
    [completed_at]: the rows it answers are stored sessions of the user and
    year that pass the filter, ordered by [completed_at] descending, at most
    [n] of them. *)
Lemma history_request_sound (completed : row_filter quiz_session)
  db userId year (n : nat) (l : list quiz_session) :
  data (from (quiz_sessions db)
          |> where_ (eq_uuid qs_user_id userId)
          |> where_ (eq_integer qs_year year)
          |> where_ completed
          |> order completed_at_desc
          |> limit n
          |> await None) = Some l ->
  (forall s, In s l ->
     In s (quiz_sessions db) /\ qs_user_id s = userId /\ qs_year s = year /\
     forall p, completed = inr p -> p s = true) /\
  Sorted (fun a b => completed_at_desc a b = true) l /\
  (List.length l <= n)%nat.
Proof.
  unfold await, where_, order, limit, from.
  cbn [filters source ordering row_limit app rejected eq_uuid eq_integer].
  destruct completed as [e|p]; cbn [rejected]; [discriminate|].
  cbn [data ok apply_limit apply_order]. intros [= <-].
  split; [|split].
  - intros s Hs. apply in_firstn in Hs.
    apply (Permutation_in _ (sort_by_perm _ _)) in Hs.
    apply filter_In in Hs. destruct Hs as [Hin Hk]. cbn in Hk.
    apply andb_true_iff in Hk. destruct Hk as [Hu Hk].
    apply andb_true_iff in Hk. destruct Hk as [Hy Hk].
    apply andb_true_iff in Hk. destruct Hk as [Hp _].
    apply String.eqb_eq in Hu. apply Z.eqb_eq in Hy.
    repeat split; auto. now intros p' [= <-].
  - apply Sorted_firstn, sort_by_sorted, completed_at_desc_total.
  - apply firstn_le_length.
Qed.

(** C4 on the code.  The table holds two completed sessions of "u1" in
    year 2 (and one in progress, and one of another user).  The request of
    [getHistory("u1", 2, 2)] is answered with the error 22007 and no rows,
    because its filter on [completed_at] compares the column with the text
    [null]; [getHistory] swallows the error and returns the empty list.  The
    same request with a filter that keeps the rows whose [completed_at] is
    set answers the two completed sessions, newest first: this is the
    listing that the comment "Only completed sessions" announces and that
    the code never returns. *)
Theorem getHistory_returns_no_completed_session :
  quizSessions_getHistory None some_history "u1" 2 (Some 2%nat) = Return [] /\
  quizSessions_getHistory None some_history "u1" 2 None = Return [] /\
  history_request (eq_timestamptz completed_at None) some_history "u1" 2 2
  = failed invalid_datetime /\
  history_request (inr (fun s => is_some (completed_at s))) some_history "u1" 2 2
  = ok [session_of "s2" "u1" 2 (Some 80); session_of "s1" "u1" 2 (Some 50)] /\
  In (session_of "s2" "u1" 2 (Some 80)) (quiz_sessions some_history) /\
  In (session_of "s1" "u1" 2 (Some 50)) (quiz_sessions some_history).
Proof.
  split; [reflexivity|]. split; [reflexivity|].
  split; [reflexivity|]. split; [reflexivity|].
  split; [right; left; reflexivity | left; reflexivity].
Qed.

(** ** questions.getAll *)

Lemma text_le_nulls_last_total a b :
  text_le_nulls_last a b = true \/ text_le_nulls_last b a = true.
Proof.
  destruct a as [x|], b as [y|]; simpl; auto. apply String.leb_total.
Qed.

Lemma year_section_le_total y1 s1 y2 s2 :
  year_section_le y1 s1 y2 s2 = true \/ year_section_le y2 s2 y1 s1 = true.
Proof.
  unfold year_section_le.
  destruct (Z.lt_trichotomy y1 y2) as [H|[H|H]].
  - left. apply Z.ltb_lt in H. now rewrite H.
  - subst y2. rewrite Z.ltb_irrefl, Z.eqb_refl. simpl.
    apply text_le_nulls_last_total.
  - right. apply Z.ltb_lt in H. now rewrite H.
Qed.

Lemma question_le_spec a b : question_le a b = true <-> year_then_section a b.
Proof.
  unfold question_le, year_section_le, year_then_section.
  rewrite orb_true_iff, andb_true_iff, Z.ltb_lt, Z.eqb_eq. reflexivity.
Qed.

Lemma Sorted_weaken {A : Type} (P Q : A -> A -> Prop) (l : list A) :
  (forall a b, P a b -> Q a b) -> Sorted P l -> Sorted Q l.
Proof.
  intros HPQ. induction 1 as [|x l Hs IH Hhd]; constructor; [exact IH|].
  destruct Hhd; constructor. now apply HPQ.
Qed.

Lemma if_num_run {A : Type} (x : option Z) (f : Z -> A -> A) (a : A) :
  if_num x f a = if Js.truthy_num x
                 then match x with Some n => f n a | None => a end
                 else a.
Proof. destruct x as [n|]; simpl; [|reflexivity]. now destruct (n =? 0). Qed.

Lemma if_str_run {A : Type} (x : option string) (f : string -> A -> A) (a : A) :
  if_str x f a = if Js.truthy_str x
                 then match x with Some s => f s a | None => a end
                 else a.
Proof. destruct x as [s|]; simpl; [|reflexivity]. now destruct (String.eqb s ""). Qed.

(** What [questions.getAll] computes when the request goes through. *)
Lemma questions_getAll_run db year section difficulty :
  questions_getAll None db year section difficulty =
  Return (sort_by question_le
            (filter (question_matches year section difficulty) (questions db))).
Proof.
  unfold questions_getAll. cbv zeta. rewrite !if_num_run, !if_str_run.
  unfold question_matches.
  destruct (Js.truthy_num year) eqn:Ey, (Js.truthy_str section) eqn:Es,
    (Js.truthy_str difficulty) eqn:Ed;
    destruct year as [y|], section as [s|], difficulty as [d|];
    try discriminate; cbn; do 2 f_equal; apply filter_ext; intros q;
    cbn;
    repeat match goal with
           | |- context [match ?c q with _ => _ end] => destruct (c q)
           end;
    cbn; rewrite ?andb_true_r, ?andb_false_r, ?andb_assoc; reflexivity.
Qed.

(** C8, as stated, fails: [getAll(0)] applies no filter on [year] and returns
    the question of year 1. *)
Lemma questions_getAll_year_zero_is_no_filter :
  ~ getAll_filters_every_supplied_argument one_question (Some 0) None None.
Proof.
  intros (l & Hrun & Hperm & _).
  rewrite questions_getAll_run in Hrun. cbn in Hrun.
  injection Hrun as <-. cbn in Hperm.
  apply Permutation_length in Hperm. discriminate.
Qed.

(** C8, amended.  For every combination of the arguments, when the request
    goes through, [questions.getAll] returns exactly the questions that
    satisfy the conjunction of the equality filters of the truthy arguments
    (an argument that is null, or falsy as year 0 or the empty string,
    restricts nothing), ordered by year and then by section. *)
Theorem questions_getAll_filters_and_order
  (db : DB) (year : option Z) (section difficulty : option string) :
  exists l,
    questions_getAll None db year section difficulty = Return l /\
    Permutation l (filter (question_matches year section difficulty) (questions db)) /\
    (forall q, In q l <->
               In q (questions db) /\ question_matches year section difficulty q = true) /\
    Sorted year_then_section l.
Proof.
  eexists. split; [apply questions_getAll_run|].
  split; [apply sort_by_perm|]. split.
  - intros q. rewrite <- filter_In. split; apply Permutation_in.
    + apply sort_by_perm.
    + apply Permutation_sym, sort_by_perm.
  - apply Sorted_weaken with (P := fun a b => question_le a b = true).
    + intros a b. apply question_le_spec.
    + apply sort_by_sorted. intros a b. apply year_section_le_total.
Qed.

(** On truthy or null arguments the two readings of the filters agree. *)
Lemma question_matches_satisfies year section difficulty q :
  year <> Some 0 -> section <> Some "" -> difficulty <> Some "" ->
  question_matches year section difficulty q =
  question_satisfies year section difficulty q.
Proof.
  intros Hy Hs Hd. unfold question_matches, question_satisfies.
  f_equal; [f_equal|].
  - destruct year as [y|]; simpl; [|reflexivity].
    destruct (Z.eqb_spec y 0) as [->|]; [congruence | reflexivity].
  - destruct section as [s|]; simpl; [|reflexivity].
    destruct (String.eqb_spec s "") as [->|]; [congruence|].
    simpl. now destruct (q_section q).
  - destruct difficulty as [d|]; simpl; [|reflexivity].
    destruct (String.eqb_spec d "") as [->|]; [congruence|].
    simpl. now destruct (q_difficulty q).
Qed.

(** ** Password reset *)


Lemma lower_ascii_idem c : Js.lower_ascii (Js.lower_ascii c) = Js.lower_ascii c.
Proof.
  destruct c as [[] [] [] [] [] [] [] []]; reflexivity.
Qed.


Lemma toLowerCase_idem s : Js.toLowerCase (Js.toLowerCase s) = Js.toLowerCase s.
Proof.
  induction s as [|c s IH]; simpl; [reflexivity|].
  now rewrite lower_ascii_idem, IH.
Qed.


Lemma password_of_set id password l :
  password_of id (set_password id password l) = Some password.
Proof.
  induction l as [|[i p] l IH]; simpl.
  - now rewrite String.eqb_refl.
  - destruct (String.eqb i id) eqn:E; simpl; now rewrite E.
Qed.

Section ResetPasswordFacts.

Variable rpc : DB -> uuid -> string -> response bool.

(** What [resetPassword] does, by the rows the lookup finds. *)
Lemma auth_resetPassword_run refusal db email answer newPassword :
  auth_resetPassword rpc None refusal db email answer newPassword =
  match filter (stores_email (Js.toLowerCase email)) (profiles db) with
  | [p] =>
      match data (rpc db (p_id p) (Js.toLowerCase answer)) with
      | Some true =>
          match refusal with
          | Some e => (Throw (ThrownPg e), db)
          | None =>
              (Return true,
               snd (auth_admin_updateUserById None db (p_id p) newPassword))
          end
      | _ => (Throw (ThrownError "Invalid security answer"), db)
      end
  | _ => (Throw (ThrownError "User not found"), db)
  end.
Proof.
  unfold auth_resetPassword, await, where_, from. cbn [rejected filters source
    ordering row_limit app apply_limit apply_order eq_text].
  replace (filter _ (profiles db))
    with (filter (stores_email (Js.toLowerCase email)) (profiles db)).
  2:{ apply filter_ext. intros p. unfold stores_email. simpl.
      destruct (p_email p); [now rewrite andb_true_r | reflexivity]. }
  destruct (filter (stores_email (Js.toLowerCase email)) (profiles db))
    as [|p [|p' rest]]; cbn; try reflexivity.
  destruct (data (rpc db (p_id p) (Js.toLowerCase answer))) as [[]|];
    try reflexivity.
  now destruct refusal.
Qed.

Lemma auth_resetPassword_lookup_fault e refusal db email answer newPassword :
  auth_resetPassword rpc (Some e) refusal db email answer newPassword =
  (Throw (ThrownError "User not found"), db).
Proof. reflexivity. Qed.

End ResetPasswordFacts.

Lemma existsb_nothing {A : Type} (f : A -> bool) (l : list A) :
  (forall x, In x l -> f x = false) -> existsb f l = false.
Proof.
  induction l as [|y l IH]; intros H; simpl; [reflexivity|].
  rewrite (H y (or_introl eq_refl)). apply IH. intros x Hx. apply H. now right.
Qed.

(** With [id] the primary key of [profiles], the modelled procedure compares
    the answer with the one stored answer of that profile. *)
Lemma verify_security_answer_of_profile db p answer :
  NoDup (map p_id (profiles db)) -> In p (profiles db) ->
  verify_security_answer db (p_id p) answer = ok (answer_matches p answer).
Proof.
  unfold verify_security_answer, answer_matches. intros Hnd Hin. f_equal.
  induction (profiles db) as [|q l IH]; [destruct Hin|].
  simpl in *. inversion Hnd as [|? ? Hq Hl]; subst.
  destruct Hin as [->|Hin].
  - rewrite String.eqb_refl. simpl.
    rewrite existsb_nothing; [now rewrite orb_false_r|].
    intros x Hx. destruct (String.eqb_spec (p_id x) (p_id p)) as [E|]; [|reflexivity].
    exfalso. apply Hq. rewrite <- E. now apply in_map.
  - destruct (String.eqb_spec (p_id q) (p_id p)) as [E|].
    + exfalso. apply Hq. rewrite E. now apply in_map.
    + simpl. now apply IH.
Qed.

Lemma answer_matches_lower p answer :
  answer_matches p (Js.toLowerCase answer) = answer_matches p answer.
Proof.
  unfold answer_matches. destruct (p_security_answer p); [|reflexivity].
  now rewrite toLowerCase_idem.
Qed.

(** C6, as stated, fails: the one profile stores exactly the supplied email
    and the answer matches up to case, yet the reset fails with "User not
    found", because the lookup asks for the lower-cased email. *)
Lemma resetPassword_stored_upper_case_email_not_found :
  ~ resetPassword_by_supplied_email
      (with_profiles [profile_with "u1" "A@B.com" "Blue"]) "A@B.com" "blue" "newpass".
Proof.
  intros [_ H].
  destruct (H (profile_with "u1" "A@B.com" "Blue") (or_introl eq_refl) eq_refl)
    as [_ Hok].
  destruct (Hok eq_refl) as [Hret _]. discriminate Hret.
Qed.

(** C6, amended.  ([id] is the primary key of [profiles].)
    [resetPassword] looks the profile up by the lower-cased email.  It fails
    with "User not found" (NotFoundError) unless exactly one profile stores
    that lower-cased email; it fails with "Invalid security answer"
    (AuthError) when the supplied answer differs from that profile's stored
    answer even up to case; otherwise, the administrative call being
    accepted, it returns [true] and the password of that profile's user is
    the new password. *)
Theorem resetPassword_outcomes (db : DB) (email answer newPassword : string) :
  NoDup (map p_id (profiles db)) ->
  let found := filter (stores_email (Js.toLowerCase email)) (profiles db) in
  let run := auth_resetPassword verify_security_answer None None db
               email answer newPassword in
  ((forall p, found <> [p]) ->
   run = (Throw (ThrownError "User not found"), db) /\
   error_kind_of (ThrownError "User not found") = NotFoundError) /\
  (forall p, found = [p] -> answer_matches p answer = false ->
   run = (Throw (ThrownError "Invalid security answer"), db) /\
   error_kind_of (ThrownError "Invalid security answer") = AuthError) /\
  (forall p, found = [p] -> answer_matches p answer = true ->
   fst run = Return true /\
   password_of (p_id p) (auth_passwords (snd run)) = Some newPassword /\
   profiles (snd run) = profiles db).
Proof.
  intros Hpk found run. subst run. rewrite auth_resetPassword_run. fold found.
  assert (Hverify : forall p, found = [p] ->
            data (verify_security_answer db (p_id p) (Js.toLowerCase answer)) =
            Some (answer_matches p answer)).
  { intros p Hp. rewrite verify_security_answer_of_profile; [| exact Hpk |].
    - simpl. now rewrite answer_matches_lower.
    - assert (Hin : In p found) by (rewrite Hp; now left).
      unfold found in Hin. now apply filter_In in Hin. }
  split; [|split].
  - intros Hnot. split; [|reflexivity].
    destruct found as [|p [|p' rest]]; try reflexivity.
    now destruct (Hnot p).
  - intros p Hp Hno. split; [|reflexivity].
    specialize (Hverify p Hp). rewrite Hp, Hverify, Hno. reflexivity.
  - intros p Hp Hyes.
    specialize (Hverify p Hp). rewrite Hp, Hverify, Hyes. simpl.
    split; [reflexivity|]. split; [apply password_of_set | reflexivity].
Qed.

(** The scenario of the spec: stored answer "Blue", supplied answer "blue". *)
Lemma resetPassword_outcomes_witness :
  NoDup (map p_id (profiles (with_profiles [profile_with "u1" "a@b.com" "Blue"]))) /\
  auth_resetPassword verify_security_answer None None
    (with_profiles [profile_with "u1" "a@b.com" "Blue"]) "a@b.com" "blue" "newpass"
  = (Return true,
     {| profiles := [profile_with "u1" "a@b.com" "Blue"];
        questions := []; study_guides := []; user_progress_rows := [];
        quiz_sessions := []; bookmarks := [];
        auth_passwords := [("u1", "newpass")] |}) /\
  auth_resetPassword verify_security_answer None None
    (with_profiles [profile_with "u1" "a@b.com" "Blue"]) "a@b.com" "green" "newpass"
  = (Throw (ThrownError "Invalid security answer"),
     with_profiles [profile_with "u1" "a@b.com" "Blue"]) /\
  auth_resetPassword verify_security_answer None None
    (with_profiles [profile_with "u1" "a@b.com" "Blue"]) "c@d.com" "blue" "newpass"
  = (Throw (ThrownError "User not found"),
     with_profiles [profile_with "u1" "a@b.com" "Blue"]).
Proof.
  assert (Hpk : NoDup (map p_id
            (profiles (with_profiles [profile_with "u1" "a@b.com" "Blue"])))).
  { simpl. constructor; [intros []| constructor]. }
  split; [exact Hpk|].
  pose proof (resetPassword_outcomes
                (with_profiles [profile_with "u1" "a@b.com" "Blue"])
                "a@b.com" "blue" "newpass" Hpk) as [_ [_ Hok]].
  pose proof (resetPassword_outcomes
                (with_profiles [profile_with "u1" "a@b.com" "Blue"])
                "a@b.com" "green" "newpass" Hpk) as [_ [Hbad _]].
  pose proof (resetPassword_outcomes
                (with_profiles [profile_with "u1" "a@b.com" "Blue"])
                "c@d.com" "blue" "newpass" Hpk) as [Hnone _].
  split; [|split].
  - destruct (Hok (profile_with "u1" "a@b.com" "Blue") eq_refl eq_refl) as [H _].
    reflexivity.
  - exact (proj1 (Hbad (profile_with "u1" "a@b.com" "Blue") eq_refl eq_refl)).
  - apply Hnone. intros p. discriminate.
Defined.




(** ** userProgress.update *)

Lemma longest_bound used s : In s used -> (String.length s <= longest used)%nat.
Proof.
  induction used as [|x used IH]; intros Hin; [destruct Hin|].
  simpl. destruct Hin as [->|Hin]; [lia|]. specialize (IH Hin). lia.
Qed.

Lemma length_zeros n : String.length (zeros n) = n.
Proof. induction n as [|n IH]; simpl; [reflexivity | now rewrite IH]. Qed.

(** The generated identifier is new, so an insert of a row without [id]
    never meets a primary-key conflict. *)
Lemma uuid_generate_v4_fresh used : ~ In (uuid_generate_v4 used) used.
Proof.
  intros Hin. apply longest_bound in Hin.
  unfold uuid_generate_v4 in Hin. rewrite length_zeros in Hin. lia.
Qed.

Lemma set_user_progress_same db : set_user_progress db (user_progress_rows db) = db.
Proof. now destruct db. Qed.

Lemma existsb_same_user_year rows userId year :
  existsb (same_user_year userId year) rows = true <->
  exists r, In r rows /\ is_progress_of userId year r.
Proof.
  rewrite existsb_exists. split; intros (r & Hin & Hr); exists r; split; auto;
    now apply same_user_year_spec.
Qed.

(** A row for (userId, year) exists: the insert behind [upsert] violates
    [UNIQUE(user_id, year)], [update] throws and nothing is written. *)
Lemma userProgress_update_existing now db userId year d :
  (exists r, In r (user_progress_rows db) /\ is_progress_of userId year r) ->
  userProgress_update None now db userId year d =
  (Throw (ThrownPg unique_violation), db).
Proof.
  intros H. apply existsb_same_user_year in H.
  unfold userProgress_update, upsert_user_progress.
  cbn [up_user_id up_year]. rewrite H. cbn.
  now rewrite set_user_progress_same.
Qed.

(** No row for (userId, year) exists: [update] inserts one. *)
Lemma userProgress_update_fresh now db userId year d :
  (forall r, In r (user_progress_rows db) -> ~ is_progress_of userId year r) ->
  exists row,
    userProgress_update None now db userId year d =
    (Return (Some row), set_user_progress db (user_progress_rows db ++ [row])) /\
    is_progress_of userId year row /\ holds_document row d.
Proof.
  intros Hnone.
  assert (E : existsb (same_user_year userId year) (user_progress_rows db) = false).
  { apply existsb_nothing. intros r Hr. specialize (Hnone r Hr).
    destruct (same_user_year userId year r) eqn:Er; [|reflexivity].
    apply same_user_year_spec in Er. contradiction. }
  unfold userProgress_update, upsert_user_progress.
  cbn [up_user_id up_year]. rewrite E. cbn.
  eexists. split; [reflexivity|]. split; [split; reflexivity|].
  repeat split.
Qed.

Lemma filter_app_one {A : Type} (f : A -> bool) (l : list A) (x : A) :
  (forall r, In r l -> f r = false) -> f x = true -> filter f (l ++ [x]) = [x].
Proof.
  intros Hl Hx. rewrite filter_app, (filter_nothing f l Hl). simpl. now rewrite Hx.
Qed.

(** From a table without a row for (userId, year): the written document is
    the one read back. *)
Lemma update_then_get_fresh now db userId year d :
  (forall r, In r (user_progress_rows db) -> ~ is_progress_of userId year r) ->
  exists row,
    fst (userProgress_update None now db userId year d) = Return (Some row) /\
    userProgress_get None (snd (userProgress_update None now db userId year d))
      userId year = Return (Some row) /\
    is_progress_of userId year row /\ holds_document row d.
Proof.
  intros Hnone.
  destruct (userProgress_update_fresh now db userId year d Hnone)
    as (row & Hrun & Hkey & Hdoc).
  exists row. rewrite Hrun. cbn [fst snd].
  split; [reflexivity|]. split; [|now split].
  unfold userProgress_get. rewrite progress_lookup.
  cbn [user_progress_rows set_user_progress].
  rewrite filter_app_one; [reflexivity | | now apply same_user_year_spec].
  intros r Hr. specialize (Hnone r Hr).
  destruct (same_user_year userId year r) eqn:Er; [|reflexivity].
  apply same_user_year_spec in Er. contradiction.
Qed.

(** From a table without a row for (userId, year): of two updates the second
    throws, and the one stored row is that of the first. *)
Lemma update_twice_from_fresh now1 now2 db userId year d1 d2 :
  (forall r, In r (user_progress_rows db) -> ~ is_progress_of userId year r) ->
  let db1 := snd (userProgress_update None now1 db userId year d1) in
  let second := userProgress_update None now2 db1 userId year d2 in
  fst second = Throw (ThrownPg unique_violation) /\
  snd second = db1 /\
  exists row,
    filter (same_user_year userId year) (user_progress_rows (snd second)) = [row] /\
    holds_document row d1.
Proof.
  intros Hnone db1 second.
  destruct (userProgress_update_fresh now1 db userId year d1 Hnone)
    as (row & Hrun & Hkey & Hdoc).
  assert (Hdb1 : db1 = set_user_progress db (user_progress_rows db ++ [row])).
  { unfold db1. now rewrite Hrun. }
  assert (Hsecond : second = (Throw (ThrownPg unique_violation), db1)).
  { unfold second. apply userProgress_update_existing. exists row.
    split; [|exact Hkey]. rewrite Hdb1. cbn. apply in_or_app. right. now left. }
  rewrite Hsecond. cbn [fst snd]. split; [reflexivity|]. split; [reflexivity|].
  exists row. split; [|exact Hdoc].
  rewrite Hdb1. cbn [user_progress_rows set_user_progress].
  apply filter_app_one; [| now apply same_user_year_spec].
  intros r Hr. specialize (Hnone r Hr).
  destruct (same_user_year userId year r) eqn:Er; [|reflexivity].
  apply same_user_year_spec in Er. contradiction.
Qed.

(** *** The conflict target (user_id, year)

    What the same upsert does once the conflict is resolved on
    (user_id, year), as the database function [update_user_progress] of the
    schema resolves it. *)

Section OverwriteInPlace.

Variable key : user_progress -> bool.
Variable g : user_progress -> user_progress.
Hypothesis g_keeps_key : forall r, key r = true -> key (g r) = true.

Lemma filter_rewritten rows :
  filter key (update_where key g rows) = map g (filter key rows).
Proof.
  induction rows as [|r rows IH]; simpl; [reflexivity|].
  destruct (key r) eqn:E; simpl.
  - rewrite (g_keeps_key r E). simpl. now f_equal.
  - rewrite E. exact IH.
Qed.

Lemma rewritten_row rows x :
  In x (update_where key g rows) -> key x = true ->
  exists r, In r rows /\ key r = true /\ x = g r.
Proof.
  intros Hin Hx. apply in_map_iff in Hin. destruct Hin as (r & Hr & Hin).
  destruct (key r) eqn:E.
  - exists r. auto.
  - subst x. congruence.
Qed.

End OverwriteInPlace.

(** With [onConflict: 'user_id,year'] the upsert never fails on the rows; it
    keeps the number of rows of the key (one, when there was none) and every
    row of the key carries the values of the call. *)
Lemma upsert_on_user_year_overwrites now values rows :
  let key := same_user_year (up_user_id values) (up_year values) in
  let result := upsert_user_progress None now (Some OnUserYear) values rows in
  error (fst result) = None /\
  List.length (filter key (snd result)) = Nat.max 1 (List.length (filter key rows)) /\
  (forall x, In x (snd result) -> key x = true ->
     progress_data x = progress_data values /\
     exam_readiness x = exam_readiness values /\
     statistics x = statistics values /\
     bookmarks_json x = bookmarks_json values /\
     weak_areas x = weak_areas values /\
     streak_data x = streak_data values).
Proof.
  intros key result. unfold result, upsert_user_progress. fold key.
  assert (Hkey : key values = true).
  { apply same_user_year_spec. now split. }
  destruct (existsb key rows) eqn:E; cbn [fst snd error ok].
  - split; [reflexivity|]. split.
    + rewrite filter_rewritten.
      * rewrite length_map. apply existsb_exists in E.
        destruct E as (r & Hr & Hk).
        assert (Hin : In r (filter key rows)) by (apply filter_In; auto).
        destruct (filter key rows); [destruct Hin | simpl; lia].
      * intros r _. apply same_user_year_spec. now split.
    + intros x Hx Hk. apply rewritten_row in Hx; [|exact Hk].
      destruct Hx as (r & _ & _ & ->). repeat split.
  - split; [reflexivity|].
    assert (Hnone : forall r, In r rows -> key r = false).
    { intros r Hr. destruct (key r) eqn:Er; [|reflexivity].
      rewrite <- E. symmetry. apply existsb_exists. eauto. }
    split.
    + rewrite filter_app_one; [| exact Hnone | apply same_user_year_spec; now split].
      now rewrite (filter_nothing key rows Hnone).
    + intros x Hx Hk. apply in_app_or in Hx. destruct Hx as [Hx|[<-|[]]].
      * rewrite (Hnone x Hx) in Hk. discriminate.
      * repeat split.
Qed.

(** The database function of the schema resolves the conflict on
    (user_id, year): called on an existing key it overwrites
    [progress_data] in place. *)
Lemma update_user_progress_overwrites now rows p_user_id p_year p_progress_data :
  let key := same_user_year p_user_id p_year in
  let result := update_user_progress now rows p_user_id p_year p_progress_data in
  fst result = true /\
  List.length (filter key (snd result)) = Nat.max 1 (List.length (filter key rows)) /\
  (forall x, In x (snd result) -> key x = true -> progress_data x = p_progress_data).
Proof.
  intros key result. unfold result, update_user_progress. fold key.
  destruct (existsb key rows) eqn:E; cbn [fst snd].
  - split; [reflexivity|]. split.
    + rewrite filter_rewritten.
      * rewrite length_map. apply existsb_exists in E.
        destruct E as (r & Hr & Hk).
        assert (Hin : In r (filter key rows)) by (apply filter_In; auto).
        destruct (filter key rows); [destruct Hin | simpl; lia].
      * intros r Hr. exact Hr.
    + intros x Hx Hk. apply rewritten_row in Hx; [|exact Hk].
      now destruct Hx as (r & _ & _ & ->).
  - split; [reflexivity|].
    assert (Hnone : forall r, In r rows -> key r = false).
    { intros r Hr. destruct (key r) eqn:Er; [|reflexivity].
      rewrite <- E. symmetry. apply existsb_exists. eauto. }
    split.
    + rewrite filter_app_one; [| exact Hnone | apply same_user_year_spec; now split].
      now rewrite (filter_nothing key rows Hnone).
    + intros x Hx Hk. apply in_app_or in Hx. destruct Hx as [Hx|[<-|[]]].
      * rewrite (Hnone x Hx) in Hk. discriminate.
      * reflexivity.
Qed.

(** *** Two runs of the client *)

(** C1 on the code.  [update("u1", 2, d1)] and then [update("u1", 2, d2)] on
    an empty table: the first call stores a row; the second call throws the
    unique-constraint violation of (user_id, year); one row is stored and it
    holds the fields of the first call, not those of the second. *)
Theorem userProgress_update_twice_second_call_throws :
  let first := userProgress_update None 100 empty_db "u1" 2 (answered_q1 "correct") in
  let second := userProgress_update None 200 (snd first) "u1" 2 (answered_q1 "wrong") in
  (exists row, fst first = Return (Some row)) /\
  fst second = Throw (ThrownPg unique_violation) /\
  error_kind_of (ThrownPg unique_violation) = ConflictError /\
  count_progress (snd second) "u1" 2 = 1%nat /\
  (forall r, In r (user_progress_rows (snd second)) ->
     progress_data r = Js.Obj [("q1", Js.Str "correct")] /\
     ~ holds_document r (answered_q1 "wrong")).
Proof.
  cbv zeta. split; [eexists; reflexivity|].
  split; [reflexivity|]. split; [reflexivity|]. split; [reflexivity|].
  intros r [<-|[]]. split; [reflexivity|].
  intros [H _]. discriminate H.
Qed.

(** C3 on the code.  With a row stored for ("u1", 2) whose [statistics] is
    [{answered: 5}], [update("u1", 2, {progress_data: {q1: "correct"}})]
    throws, and [get("u1", 2)] then returns the row stored before:
    [progress_data] is not what was written and [statistics] is the stored
    value, not the empty default. *)
Theorem userProgress_update_then_get_returns_stored_row :
  let stored := snd (userProgress_update None 100 empty_db "u1" 2 with_statistics) in
  let written := userProgress_update None 200 stored "u1" 2 (answered_q1 "correct") in
  let read := userProgress_get None (snd written) "u1" 2 in
  fst written = Throw (ThrownPg unique_violation) /\
  exists doc,
    read = Return (Some doc) /\
    progress_data doc = Js.Obj [("q0", Js.Str "wrong")] /\
    statistics doc = Js.Obj [("answered", Js.Num 5)] /\
    ~ holds_document doc (answered_q1 "correct").
Proof.
  cbv zeta. split; [reflexivity|].
  eexists. split; [reflexivity|]. split; [reflexivity|]. split; [reflexivity|].
  intros [H _]. discriminate H.
Qed.

(** * More of the code *)

(** ** The database functions on [user_progress] *)

Section FindFacts.

Context {R : Type}.
Implicit Types (cond : R -> bool) (g : R -> R) (rows : list R).

Lemma find_update_where cond g rows :
  (forall r, cond r = true -> cond (g r) = true) ->
  find cond (update_where cond g rows) = option_map g (find cond rows).
Proof.
  intros Hg. induction rows as [|r rows IH]; simpl; [reflexivity|].
  destruct (cond r) eqn:E; simpl.
  - now rewrite (Hg r E).
  - now rewrite E.
Qed.

Lemma find_update_where_other cond cond' g rows :
  (forall r, cond' r = true -> cond r = false) ->
  (forall r, cond' (g r) = cond' r) ->
  find cond' (update_where cond g rows) = find cond' rows.
Proof.
  intros Hdisjoint Hg. induction rows as [|r rows IH]; simpl; [reflexivity|].
  destruct (cond r) eqn:E.
  - rewrite Hg. destruct (cond' r) eqn:E'; [|exact IH].
    rewrite (Hdisjoint r E') in E. discriminate.
  - destruct (cond' r); [reflexivity | exact IH].
Qed.

Lemma find_app_last cond rows x :
  find cond (rows ++ [x]) =
  match find cond rows with
  | Some r => Some r
  | None => if cond x then Some x else None
  end.
Proof.
  induction rows as [|r rows IH]; simpl; [reflexivity|].
  now destruct (cond r).
Qed.

Lemma find_none_existsb cond rows :
  existsb cond rows = false -> find cond rows = None.
Proof.
  induction rows as [|r rows IH]; simpl; [reflexivity|].
  destruct (cond r); [discriminate | exact IH].
Qed.

Lemma find_some_existsb cond rows :
  existsb cond rows = true -> exists r, find cond rows = Some r /\ cond r = true.
Proof.
  induction rows as [|r rows IH]; simpl; [discriminate|].
  destruct (cond r) eqn:E; [eauto | exact IH].
Qed.

End FindFacts.

Lemma same_user_year_refl userId year r :
  up_user_id r = userId -> up_year r = year -> same_user_year userId year r = true.
Proof. intros. apply same_user_year_spec. now split. Qed.

Lemma same_user_year_other u y u' y' r :
  u' <> u \/ y' <> y ->
  same_user_year u' y' r = true -> same_user_year u y r = false.
Proof.
  intros Hne H'. apply same_user_year_spec in H'. destruct H' as [Hu Hy].
  destruct (same_user_year u y r) eqn:E; [|reflexivity].
  apply same_user_year_spec in E. destruct E as [Hu2 Hy2].
  destruct Hne; congruence.
Qed.

(** X1.  What [update_user_progress] writes for a user and year is what
    [get_user_progress] reads for them afterwards, whatever the table held
    before. *)
Theorem update_then_get_user_progress
  (now : timestamptz) (rows : list user_progress) (userId : uuid) (year : Z)
  (progress : Js.value) :
  fst (update_user_progress now rows userId year progress) = true /\
  get_user_progress (snd (update_user_progress now rows userId year progress))
    userId year = progress.
Proof.
  unfold update_user_progress, get_user_progress, select_into.
  destruct (existsb (same_user_year userId year) rows) eqn:E; cbn [fst snd].
  - split; [reflexivity|]. rewrite find_update_where.
    + destruct (find_some_existsb _ _ E) as (r & -> & _). reflexivity.
    + intros r Hr. exact Hr.
  - split; [reflexivity|]. rewrite find_app_last, (find_none_existsb _ _ E).
    rewrite same_user_year_refl; reflexivity.
Qed.

(** X2.  [update_user_progress] for one user and year changes nothing that
    the two read functions return for another user or year; and where a row
    existed for the written user and year, what [get_user_statistics]
    returns for them is unchanged too. *)
Theorem update_user_progress_frame
  (now : timestamptz) (rows : list user_progress) (userId : uuid) (year : Z)
  (progress : Js.value) (userId' : uuid) (year' : Z) :
  let rows' := snd (update_user_progress now rows userId year progress) in
  (userId' <> userId \/ year' <> year ->
   get_user_progress rows' userId' year' = get_user_progress rows userId' year' /\
   get_user_statistics rows' userId' year' = get_user_statistics rows userId' year') /\
  ((exists r, In r rows /\ is_progress_of userId year r) ->
   get_user_statistics rows' userId year = get_user_statistics rows userId year).
Proof.
  cbv zeta. unfold update_user_progress, get_user_progress, get_user_statistics,
    select_into.
  destruct (existsb (same_user_year userId year) rows) eqn:E; cbn [fst snd]; split.
  - intros Hne. rewrite find_update_where_other.
    + split; reflexivity.
    + intros r. now apply same_user_year_other.
    + reflexivity.
  - intros _. rewrite find_update_where; [|intros r Hr; exact Hr].
    now destruct (find (same_user_year userId year) rows).
  - intros Hne. rewrite find_app_last.
    destruct (find (same_user_year userId' year') rows); [split; reflexivity|].
    replace (same_user_year userId' year' _) with false; [split; reflexivity|].
    symmetry. unfold same_user_year. cbn.
    destruct (String.eqb_spec userId userId'), (Z.eqb_spec year year');
      try reflexivity.
    destruct Hne; congruence.
  - intros H. apply existsb_same_user_year in H. congruence.
Qed.

Lemma update_user_progress_frame_witness :
  ("u2" <> "u1" \/ 2 <> 2) /\
  get_user_progress
    (snd (update_user_progress 5 (snd (update_user_progress 1 [] "u2" 2 (Js.Num 7)))
            "u1" 2 (Js.Num 9))) "u2" 2 = Js.Num 7.
Proof.
  assert (H : "u2" <> "u1" \/ 2 <> 2) by (left; discriminate).
  split; [exact H|].
  pose proof (update_user_progress_frame 5
                (snd (update_user_progress 1 [] "u2" 2 (Js.Num 7)))
                "u1" 2 (Js.Num 9) "u2" 2) as [Hother _].
  destruct (Hother H) as [Hget _]. rewrite Hget. reflexivity.
Defined.

(** ** The constraints of [user_progress] are kept *)

Lemma NoDup_snoc {A : Type} (l : list A) (x : A) :
  NoDup l -> ~ In x l -> NoDup (l ++ [x]).
Proof.
  induction l as [|y l IH]; intros Hnd Hx; simpl.
  - constructor; [intros [] | constructor].
  - inversion Hnd as [|? ? Hy Hl]; subst. constructor.
    + intros Hin. apply in_app_or in Hin. destruct Hin as [Hin|[->|[]]].
      * contradiction.
      * apply Hx. now left.
    + apply IH; [exact Hl|]. intros Hin. apply Hx. now right.
Qed.

Lemma map_update_where {R K : Type} (k : R -> K) (cond : R -> bool) (g : R -> R)
  (rows : list R) :
  (forall r, k (g r) = k r) -> map k (update_where cond g rows) = map k rows.
Proof.
  intros Hk. unfold update_where. rewrite map_map. apply map_ext.
  intros r. now destruct (cond r).
Qed.

Lemma ids_in_use_update_where cond g rows :
  (forall r, up_id (g r) = up_id r) ->
  ids_in_use (update_where cond g rows) = ids_in_use rows.
Proof.
  intros Hid. unfold ids_in_use. induction rows as [|r rows IH]; simpl; [reflexivity|].
  rewrite IH. destruct (cond r); [now rewrite Hid | reflexivity].
Qed.

Lemma no_row_no_key userId year rows :
  existsb (same_user_year userId year) rows = false ->
  ~ In (userId, year) (map user_year_key rows).
Proof.
  intros E Hin. apply in_map_iff in Hin. destruct Hin as (r & Hk & Hr).
  unfold user_year_key in Hk. injection Hk as Hu Hy.
  assert (existsb (same_user_year userId year) rows = true); [|congruence].
  apply existsb_exists. exists r. split; [exact Hr|].
  now apply same_user_year_refl.
Qed.

(** Appending a row with a generated [id] and a key no row has. *)
Lemma user_progress_constraints_insert rows row :
  user_progress_constraints rows ->
  existsb (same_user_year (up_user_id row) (up_year row)) rows = false ->
  up_id row = Some (uuid_generate_v4 (ids_in_use rows)) ->
  user_progress_constraints (rows ++ [row]).
Proof.
  intros [Hkey Hid] E Hrow. split.
  - rewrite map_app. apply NoDup_snoc; [exact Hkey|].
    now apply no_row_no_key.
  - unfold ids_in_use in *. rewrite flat_map_app. simpl. rewrite Hrow. simpl.
    apply NoDup_snoc; [exact Hid | apply uuid_generate_v4_fresh].
Qed.

Lemma user_progress_constraints_update_where cond g rows :
  (forall r, user_year_key (g r) = user_year_key r) ->
  (forall r, up_id (g r) = up_id r) ->
  user_progress_constraints rows ->
  user_progress_constraints (update_where cond g rows).
Proof.
  intros Hk Hi [Hkey Hid]. split.
  - now rewrite map_update_where.
  - now rewrite ids_in_use_update_where.
Qed.

(** X3.  A table that satisfies [UNIQUE(user_id, year)] and has distinct
    [id]s still does after [userProgress.update], after [userProgress.reset]
    and after the database function [update_user_progress], whatever their
    arguments, whether or not the request fails and whatever they return. *)
Theorem user_progress_constraints_kept
  (fault : option PgError) (now : timestamptz) (db : DB) (userId : uuid) (year : Z)
  (d : progress_input) (progress : Js.value) :
  user_progress_constraints (user_progress_rows db) ->
  user_progress_constraints
    (user_progress_rows (snd (userProgress_update fault now db userId year d))) /\
  user_progress_constraints
    (user_progress_rows (snd (userProgress_reset fault now db userId year))) /\
  user_progress_constraints
    (snd (update_user_progress now (user_progress_rows db) userId year progress)).
Proof.
  intros Hc. split; [|split].
  - unfold userProgress_update, upsert_user_progress. cbn [up_user_id up_year].
    destruct fault as [e|]; [exact Hc|].
    destruct (existsb (same_user_year userId year) (user_progress_rows db)) eqn:E;
      cbn [snd user_progress_rows set_user_progress]; [exact Hc|].
    apply user_progress_constraints_insert; [exact Hc | exact E | reflexivity].
  - unfold userProgress_reset, update_single.
    destruct fault as [e|]; [exact Hc|].
    destruct (filter _ (user_progress_rows db)) as [|r [|r' rest]];
      cbn [snd user_progress_rows set_user_progress]; try exact Hc.
    apply user_progress_constraints_update_where; [reflexivity | reflexivity | exact Hc].
  - unfold update_user_progress.
    destruct (existsb (same_user_year userId year) (user_progress_rows db)) eqn:E;
      cbn [snd].
    + apply user_progress_constraints_update_where; [reflexivity | reflexivity | exact Hc].
    + apply user_progress_constraints_insert; [exact Hc | exact E | reflexivity].
Qed.

Lemma user_progress_constraints_kept_witness :
  user_progress_constraints (user_progress_rows empty_db) /\
  user_progress_constraints
    (user_progress_rows
       (snd (userProgress_update None 1 empty_db "u1" 2 (answered_q1 "correct")))).
Proof.
  assert (H : user_progress_constraints (user_progress_rows empty_db)).
  { split; constructor. }
  split; [exact H|].
  exact (proj1 (user_progress_constraints_kept None 1 empty_db "u1" 2
                  (answered_q1 "correct") Js.Null H)).
Defined.

(** ** userProgress.reset *)

Lemma unique_filter {A K : Type} (k : A -> K) (f : A -> bool) (x : A) (l : list A) :
  NoDup (map k l) -> In x l ->
  (forall y, In y l -> (f y = true <-> k y = k x)) ->
  filter f l = [x].
Proof.
  induction l as [|y l IH]; intros Hnd Hin Hf; [destruct Hin|].
  simpl in Hnd. inversion Hnd as [|? ? Hy Hl]; subst. simpl.
  destruct Hin as [->|Hin].
  - rewrite (proj2 (Hf x (or_introl eq_refl)) eq_refl). f_equal.
    apply filter_nothing. intros z Hz.
    destruct (f z) eqn:E; [|reflexivity].
    exfalso. apply Hy. apply (Hf z (or_intror Hz)) in E. rewrite <- E.
    now apply in_map.
  - destruct (f y) eqn:E.
    + exfalso. apply Hy. apply (Hf y (or_introl eq_refl)) in E. rewrite E.
      now apply in_map.
    + apply IH; [exact Hl | exact Hin |].
      intros z Hz. apply Hf. now right.
Qed.

Lemma update_where_ext {R : Type} (c1 c2 : R -> bool) (g : R -> R) (rows : list R) :
  (forall r, c1 r = c2 r) -> update_where c1 g rows = update_where c2 g rows.
Proof.
  intros H. unfold update_where. apply map_ext. intros r. now rewrite H.
Qed.

(** What [reset] does when the request goes through, by the rows stored for
    the user and year. *)
Lemma userProgress_reset_run now db userId year :
  userProgress_reset None now db userId year =
  match filter (same_user_year userId year) (user_progress_rows db) with
  | [r] =>
      (Return (Some (cleared now r)),
       set_user_progress db
         (update_where (same_user_year userId year) (cleared now) (user_progress_rows db)))
  | _ => (Throw (ThrownPg PGRST116), db)
  end.
Proof.
  unfold userProgress_reset, update_single.
  rewrite (filter_ext _ _ (progress_filters_keep userId year)).
  rewrite (update_where_ext _ _ _ _ (progress_filters_keep userId year)).
  destruct (filter (same_user_year userId year) (user_progress_rows db))
    as [|r [|r' rest]]; cbn; try reflexivity; now rewrite set_user_progress_same.
Qed.

Lemma the_row_of_the_key rows userId year r :
  user_progress_constraints rows -> In r rows -> is_progress_of userId year r ->
  filter (same_user_year userId year) rows = [r].
Proof.
  intros [Hkey _] Hin [Hu Hy].
  apply (unique_filter user_year_key); [exact Hkey | exact Hin |].
  intros z _. rewrite same_user_year_spec. unfold is_progress_of, user_year_key.
  subst. split; [intros [-> ->]; reflexivity | intros [= -> ->]; now split].
Qed.

(** X4.  On a table that satisfies its constraints, [reset] of a stored
    (userId, year) returns the row with its six JSON fields emptied, [id] and
    [created_at] kept and [updated_at] set to the time of the call, and
    [get] afterwards returns that same document. *)
Theorem userProgress_reset_then_get
  (now : timestamptz) (db : DB) (userId : uuid) (year : Z) (r : user_progress) :
  user_progress_constraints (user_progress_rows db) ->
  In r (user_progress_rows db) -> is_progress_of userId year r ->
  exists doc,
    fst (userProgress_reset None now db userId year) = Return (Some doc) /\
    userProgress_get None (snd (userProgress_reset None now db userId year))
      userId year = Return (Some doc) /\
    is_progress_of userId year doc /\
    progress_data doc = Js.Obj [] /\ exam_readiness doc = Js.Obj [] /\
    statistics doc = Js.Obj [] /\ bookmarks_json doc = Js.Arr [] /\
    weak_areas doc = Js.Arr [] /\ streak_data doc = Js.Obj [] /\
    up_id doc = up_id r /\ up_created_at doc = up_created_at r /\
    up_updated_at doc = Some now.
Proof.
  intros Hc Hin Hr. exists (cleared now r).
  pose proof (the_row_of_the_key _ _ _ _ Hc Hin Hr) as Hone.
  rewrite userProgress_reset_run, Hone. cbn [fst snd].
  split; [reflexivity|]. split.
  - unfold userProgress_get. rewrite progress_lookup.
    cbn [user_progress_rows set_user_progress].
    rewrite filter_rewritten; [now rewrite Hone|].
    intros x Hx. exact Hx.
  - destruct Hr as [Hu Hy]. repeat split; assumption.
Qed.

Lemma userProgress_reset_then_get_witness :
  user_progress_constraints (user_progress_rows one_progress_row) /\
  exists r doc,
    In r (user_progress_rows one_progress_row) /\ is_progress_of "u1" 2 r /\
    statistics r = Js.Obj [("answered", Js.Num 5)] /\
    userProgress_get None (snd (userProgress_reset None 200 one_progress_row "u1" 2))
      "u1" 2 = Return (Some doc) /\
    statistics doc = Js.Obj [] /\ up_updated_at doc = Some 200.
Proof.
  assert (Hc : user_progress_constraints (user_progress_rows one_progress_row)).
  { split; (constructor; [intros [] | constructor]). }
  split; [exact Hc|].
  eexists. 
  destruct (userProgress_reset_then_get 200 one_progress_row "u1" 2 _ Hc
              (or_introl eq_refl) (conj eq_refl eq_refl))
    as (doc & _ & Hget & _ & _ & _ & Hs & _ & _ & _ & _ & _ & Hup).
  exists doc. split; [left; reflexivity|]. split; [split; reflexivity|].
  split; [reflexivity|]. split; [exact Hget|]. split; [exact Hs | exact Hup].
Defined.

(** X5.  [reset] of a (userId, year) that has no row throws the error
    PGRST116 of [.single()] (where [get] returns the default document) and
    changes nothing. *)
Theorem userProgress_reset_missing_row
  (now : timestamptz) (db : DB) (userId : uuid) (year : Z) :
  (forall r, In r (user_progress_rows db) -> ~ is_progress_of userId year r) ->
  userProgress_reset None now db userId year = (Throw (ThrownPg PGRST116), db) /\
  error_kind_of (ThrownPg PGRST116) = NotFoundError /\
  userProgress_get None db userId year = Return (Some (default_document userId year)).
Proof.
  intros Hnone.
  assert (E : filter (same_user_year userId year) (user_progress_rows db) = []).
  { apply filter_nothing. intros r Hr. specialize (Hnone r Hr).
    destruct (same_user_year userId year r) eqn:Er; [|reflexivity].
    apply same_user_year_spec in Er. contradiction. }
  split; [|split; [reflexivity|]].
  - now rewrite userProgress_reset_run, E.
  - unfold userProgress_get. now rewrite progress_lookup, E.
Qed.

Lemma userProgress_reset_missing_row_witness :
  (forall r, In r (user_progress_rows one_progress_row) -> ~ is_progress_of "u1" 3 r) /\
  userProgress_reset None 200 one_progress_row "u1" 3
  = (Throw (ThrownPg PGRST116), one_progress_row).
Proof.
  assert (H : forall r, In r (user_progress_rows one_progress_row) ->
                        ~ is_progress_of "u1" 3 r).
  { intros r [<-|[]] [_ Hy]. discriminate Hy. }
  split; [exact H|].
  exact (proj1 (userProgress_reset_missing_row 200 one_progress_row "u1" 3 H)).
Defined.

Lemma filter_update_where_other {R : Type} (cond : R -> bool) (g : R -> R)
  (rows : list R) :
  (forall r, cond r = true -> cond (g r) = true) ->
  filter (fun r => negb (cond r)) (update_where cond g rows) =
  filter (fun r => negb (cond r)) rows.
Proof.
  intros Hg. induction rows as [|r rows IH]; simpl; [reflexivity|].
  destruct (cond r) eqn:E; simpl.
  - now rewrite (Hg r E).
  - rewrite E. simpl. now f_equal.
Qed.

(** X6.  Whatever its arguments and its outcome, [reset] neither adds nor
    removes a row, and leaves the rows of every other user or year as they
    were, in their order. *)
Theorem userProgress_reset_frame
  (fault : option PgError) (now : timestamptz) (db : DB) (userId : uuid) (year : Z) :
  let rows' := user_progress_rows (snd (userProgress_reset fault now db userId year)) in
  List.length rows' = List.length (user_progress_rows db) /\
  filter (fun r => negb (same_user_year userId year r)) rows' =
  filter (fun r => negb (same_user_year userId year r)) (user_progress_rows db).
Proof.
  cbv zeta. destruct fault as [e|]; [split; reflexivity|].
  rewrite userProgress_reset_run.
  destruct (filter (same_user_year userId year) (user_progress_rows db))
    as [|r [|r' rest]]; cbn [snd user_progress_rows set_user_progress];
    try (split; reflexivity).
  split.
  - unfold update_where. apply length_map.
  - apply filter_update_where_other. intros x Hx. exact Hx.
Qed.

(** ** Reads of the reference data by key *)

Lemma in_sort_by {R : Type} (le : R -> R -> bool) (l : list R) (x : R) :
  In x (sort_by le l) <-> In x l.
Proof.
  split; apply Permutation_in; [apply sort_by_perm | apply Permutation_sym, sort_by_perm].
Qed.

Lemma getById_run {R : Type} (rows : list R) (col : R -> uuid) (id : uuid) :
  try_catch
    (let r := from rows |> where_ (eq_uuid col id) |> await None |> single in
     throw_if_error (error r) (Return (data r)))
    (fun _ => Return None) =
  Return match filter (fun r => String.eqb (col r) id) rows with
         | [x] => Some x
         | _ => None
         end.
Proof.
  cbv zeta. unfold await, where_, from. cbn [filters source ordering row_limit app
    rejected eq_uuid apply_limit apply_order].
  rewrite (filter_ext _ (fun r => String.eqb (col r) id)).
  - now destruct (filter _ rows) as [|x [|y rest]].
  - intros r. cbn. now rewrite andb_true_r.
Qed.

Lemma the_row_of_the_id {R : Type} (col : R -> uuid) (rows : list R) (x : R) :
  NoDup (map col rows) -> In x rows ->
  filter (fun r => String.eqb (col r) (col x)) rows = [x].
Proof.
  intros Hnd Hin. apply (unique_filter col); [exact Hnd | exact Hin |].
  intros y _. apply String.eqb_eq.
Qed.

Lemma no_row_of_the_id {R : Type} (col : R -> uuid) (rows : list R) (id : uuid) :
  ~ In id (map col rows) -> filter (fun r => String.eqb (col r) id) rows = [].
Proof.
  intros Hnot. apply filter_nothing. intros r Hr.
  apply String.eqb_neq. intros <-. apply Hnot. now apply in_map.
Qed.

(** X7.  With [id] the primary key, [questions.getById] and
    [studyGuides.getById] return each stored row for its own [id]; for an
    [id] no row has, and whenever the request fails, they return [null];
    they never throw. *)
Theorem getById_round_trip (db : DB) :
  NoDup (map q_id (questions db)) -> NoDup (map g_id (study_guides db)) ->
  (forall q, In q (questions db) ->
     questions_getById None db (q_id q) = Return (Some q)) /\
  (forall g, In g (study_guides db) ->
     studyGuides_getById None db (g_id g) = Return (Some g)) /\
  (forall id, ~ In id (map q_id (questions db)) ->
     questions_getById None db id = Return None) /\
  (forall id, ~ In id (map g_id (study_guides db)) ->
     studyGuides_getById None db id = Return None) /\
  (forall e id, questions_getById (Some e) db id = Return None /\
                studyGuides_getById (Some e) db id = Return None).
Proof.
  intros Hq Hg. split; [|split; [|split; [|split]]].
  - intros q Hin. unfold questions_getById. rewrite getById_run.
    now rewrite the_row_of_the_id.
  - intros g Hin. unfold studyGuides_getById. rewrite getById_run.
    now rewrite the_row_of_the_id.
  - intros id Hnot. unfold questions_getById. rewrite getById_run.
    now rewrite no_row_of_the_id.
  - intros id Hnot. unfold studyGuides_getById. rewrite getById_run.
    now rewrite no_row_of_the_id.
  - intros e id. split; reflexivity.
Qed.

Lemma getById_round_trip_witness :
  NoDup (map q_id (questions one_question)) /\
  NoDup (map g_id (study_guides one_question)) /\
  exists q, In q (questions one_question) /\
            questions_getById None one_question "q1" = Return (Some q) /\
            questions_getById None one_question "q2" = Return None.
Proof.
  assert (Hq : NoDup (map q_id (questions one_question))).
  { constructor; [intros [] | constructor]. }
  assert (Hg : NoDup (map g_id (study_guides one_question))) by constructor.
  split; [exact Hq|]. split; [exact Hg|].
  destruct (getById_round_trip one_question Hq Hg) as (Hfound & _ & Hnone & _).
  eexists. split; [left; reflexivity|]. split.
  - exact (Hfound _ (or_introl eq_refl)).
  - apply Hnone. intros [H|[]]. discriminate H.
Defined.

(** X8.  [questions.getBySection(year, section)] with a non-empty section
    returns exactly those questions of [questions.getByYear(year)] that have
    this section; with the empty string, or no section, it returns what
    [getByYear] returns.  [getByYear] of a year other than 0 returns exactly
    the stored questions of that year. *)
Theorem questions_getBySection_within_getByYear
  (db : DB) (year : option Z) (section : string) :
  section <> "" ->
  (exists l1 l2,
     questions_getByYear None db year = Return l1 /\
     questions_getBySection None db year (Some section) = Return l2 /\
     forall q, In q l2 <-> In q l1 /\ q_section q = Some section) /\
  questions_getBySection None db year (Some "") = questions_getByYear None db year /\
  questions_getBySection None db year None = questions_getByYear None db year /\
  (forall y, year = Some y -> y <> 0 ->
     exists l1, questions_getByYear None db year = Return l1 /\
                forall q, In q l1 <-> In q (questions db) /\ q_year q = y).
Proof.
  intros Hs. unfold questions_getByYear, questions_getBySection.
  split; [|split; [|split]].
  - do 2 eexists. split; [apply questions_getAll_run|].
    split; [apply questions_getAll_run|].
    intros q. rewrite !in_sort_by, !filter_In. unfold question_matches.
    cbn [Js.truthy_str]. apply String.eqb_neq in Hs. rewrite Hs. cbn [negb].
    rewrite !andb_true_r, andb_true_iff.
    destruct (q_section q) as [c|].
    + rewrite String.eqb_eq. split.
      * intros (Hin & Hy & ->). auto.
      * intros ((Hin & Hy) & [= ->]). auto.
    + split; [intros (_ & _ & H); discriminate | intros (_ & H); discriminate].
  - now rewrite !questions_getAll_run.
  - reflexivity.
  - intros y -> Hy. eexists. split; [apply questions_getAll_run|].
    intros q. rewrite in_sort_by, filter_In. unfold question_matches.
    cbn. apply Z.eqb_neq in Hy. rewrite Hy. cbn.
    now rewrite !andb_true_r, Z.eqb_eq.
Qed.

Lemma questions_getBySection_within_getByYear_witness :
  "A"%string <> ""%string /\
  exists l2,
    questions_getBySection None one_question (Some 1) (Some "A") = Return l2 /\
    forall q, In q l2 -> q_section q = Some "A"%string.
Proof.
  assert (H : "A"%string <> ""%string) by discriminate.
  split; [exact H|].
  destruct (questions_getBySection_within_getByYear one_question (Some 1) "A" H)
    as ((l1 & l2 & _ & H2 & Hin) & _).
  exists l2. split; [exact H2|]. intros q Hq. now apply Hin in Hq.
Defined.

(** ** studyGuides.getAll *)

Lemma studyGuides_getAll_run db year section :
  studyGuides_getAll None db year section =
  Return (sort_by study_guide_le
            (filter (study_guide_matches year section) (study_guides db))).
Proof.
  unfold studyGuides_getAll. cbv zeta. rewrite !if_num_run, !if_str_run.
  unfold study_guide_matches.
  destruct (Js.truthy_num year) eqn:Ey, (Js.truthy_str section) eqn:Es;
    destruct year as [y|], section as [s|];
    try discriminate; cbn; do 2 f_equal; apply filter_ext; intros g;
    cbn;
    repeat match goal with
           | |- context [match ?c g with _ => _ end] => destruct (c g)
           end;
    cbn; rewrite ?andb_true_r, ?andb_false_r, ?andb_assoc; reflexivity.
Qed.

(** X9.  When the request goes through, [studyGuides.getAll] returns
    exactly the study guides that pass the equality filters of its truthy
    arguments (year 0, the empty string and [null] filter nothing), each as
    often as it is stored, ordered by year and then by section with the
    guides without a section last in their year. *)
Theorem studyGuides_getAll_filters_and_order
  (db : DB) (year : option Z) (section : option string) :
  exists l,
    studyGuides_getAll None db year section = Return l /\
    Permutation l (filter (study_guide_matches year section) (study_guides db)) /\
    (forall g, In g l <->
               In g (study_guides db) /\ study_guide_matches year section g = true) /\
    Sorted guide_year_then_section l.
Proof.
  eexists. split; [apply studyGuides_getAll_run|].
  split; [apply sort_by_perm|]. split.
  - intros g. now rewrite in_sort_by, filter_In.
  - apply Sorted_weaken with (P := fun a b => study_guide_le a b = true).
    + intros a b. unfold study_guide_le, year_section_le, guide_year_then_section.
      now rewrite orb_true_iff, andb_true_iff, Z.ltb_lt, Z.eqb_eq.
    + apply sort_by_sorted. intros a b. apply year_section_le_total.
Qed.

(** ** Bookmarks: listing, and the constraints *)

Lemma bookmarks_getAll_run db userId year :
  bookmarks_getAll None db userId year =
  Return (map (embed_question (questions db))
            (filter (of_user_year userId year) (bookmarks db))).
Proof.
  unfold bookmarks_getAll. cbv zeta. unfold await, where_, from, select_columns.
  cbn. do 2 f_equal. apply filter_ext. intros b. unfold of_user_year.
  now rewrite andb_true_r.
Qed.

(** X13.  [bookmarks.getAll] never throws, and returns the empty list when
    the request fails.  When it goes through, the bookmarks it returns are
    the stored bookmarks of that user and year, in stored order; each
    carries under [questions] the listed columns of the question with the
    bookmark's [question_id], and [null] exactly when no question has that
    id. *)
Theorem bookmarks_getAll_lists_the_user_year
  (db : DB) (userId : uuid) (year : Z) :
  (forall e, bookmarks_getAll (Some e) db userId year = Return []) /\
  exists l,
    bookmarks_getAll None db userId year = Return l /\
    map bq_bookmark l = filter (of_user_year userId year) (bookmarks db) /\
    (forall b, In b (map bq_bookmark l) <->
               In b (bookmarks db) /\ b_user_id b = userId /\ b_year b = year) /\
    (forall x, In x l ->
       (bq_questions x = None <->
        forall q, In q (questions db) -> q_id q <> b_question_id (bq_bookmark x)) /\
       (forall c, bq_questions x = Some c ->
          eq_id c = b_question_id (bq_bookmark x) /\
          exists q, In q (questions db) /\ q_id q = eq_id c /\
                    eq_year c = q_year q /\ eq_section c = q_section q /\
                    eq_question_text c = q_question_text q /\
                    eq_options c = q_options q /\
                    eq_correct_answer c = q_correct_answer q /\
                    eq_difficulty c = q_difficulty q)).
Proof.
  split; [reflexivity|].
  eexists. split; [apply bookmarks_getAll_run|].
  assert (Hmap : map bq_bookmark
            (map (embed_question (questions db))
               (filter (of_user_year userId year) (bookmarks db)))
          = filter (of_user_year userId year) (bookmarks db)).
  { rewrite map_map. cbn. apply map_id. }
  split; [exact Hmap|]. split.
  - intros b. rewrite Hmap, filter_In. unfold of_user_year.
    now rewrite andb_true_iff, String.eqb_eq, Z.eqb_eq.
  - intros x Hx. apply in_map_iff in Hx. destruct Hx as (b & <- & _).
    cbn [bq_bookmark bq_questions embed_question].
    destruct (find (fun q => String.eqb (q_id q) (b_question_id b)) (questions db))
      as [q|] eqn:E; cbn [option_map]; split.
    + split; [discriminate|]. intros Hnone.
      apply find_some in E. destruct E as [Hin Hid].
      apply String.eqb_eq in Hid. now destruct (Hnone q Hin).
    + intros c [= <-]. cbn. apply find_some in E. destruct E as [Hin Hid].
      apply String.eqb_eq in Hid. split; [exact Hid|].
      exists q. repeat split; auto.
    + split; [|reflexivity]. intros _ q Hq Hid.
      apply (find_none _ _ E) in Hq. rewrite Hid, String.eqb_refl in Hq. discriminate.
    + intros c H. discriminate H.
Qed.

(** X10.  Adding a bookmark for a (userId, questionId) pair that has none
    succeeds: the table gains one row, with the given user, question and
    year, the time of the call and an [id] no row had; [add] returns that
    row, and [getAll] of the user and year then lists it. *)
Theorem bookmarks_add_then_getAll
  (now : timestamptz) (db : DB) (userId questionId : uuid) (year : Z) :
  (forall b, In b (bookmarks db) -> ~ is_bookmark_of userId questionId b) ->
  exists row l,
    bookmarks_add None now db userId questionId year =
    (Return (Some row), set_bookmarks db (bookmarks db ++ [row])) /\
    b_user_id row = userId /\ b_question_id row = questionId /\
    b_year row = year /\ b_created_at row = now /\
    ~ In (b_id row) (map b_id (bookmarks db)) /\
    bookmarks_getAll None
      (snd (bookmarks_add None now db userId questionId year)) userId year
    = Return l /\
    In row (map bq_bookmark l).
Proof.
  intros Hnone.
  assert (E : existsb (same_user_question userId questionId) (bookmarks db) = false).
  { apply existsb_nothing. intros b Hb. specialize (Hnone b Hb).
    destruct (same_user_question userId questionId b) eqn:Eb; [|reflexivity].
    apply same_user_question_spec in Eb. contradiction. }
  unfold bookmarks_add, insert_bookmark. rewrite E. cbn [single error data ok
    try_catch throw_if_error snd].
  do 2 eexists. split; [reflexivity|].
  repeat (split; [reflexivity|]).
  split; [apply uuid_generate_v4_fresh|].
  split; [apply bookmarks_getAll_run|].
  rewrite map_map. cbn [bq_bookmark embed_question]. rewrite map_id.
  apply filter_In. cbn [bookmarks set_bookmarks]. split.
  - apply in_or_app. right. now left.
  - unfold of_user_year. cbn. now rewrite String.eqb_refl, Z.eqb_refl.
Qed.

Lemma bookmarks_add_then_getAll_witness :
  (forall b, In b (bookmarks empty_db) -> ~ is_bookmark_of "u1" "q1" b) /\
  exists row l,
    fst (bookmarks_add None 7 empty_db "u1" "q1" 2) = Return (Some row) /\
    bookmarks_getAll None (snd (bookmarks_add None 7 empty_db "u1" "q1" 2)) "u1" 2
    = Return l /\
    In row (map bq_bookmark l).
Proof.
  assert (H : forall b, In b (bookmarks empty_db) -> ~ is_bookmark_of "u1" "q1" b).
  { intros b []. }
  split; [exact H|].
  destruct (bookmarks_add_then_getAll 7 empty_db "u1" "q1" 2 H)
    as (row & l & Hadd & _ & _ & _ & _ & _ & Hget & Hin).
  exists row, l. rewrite Hadd. cbn [fst]. split; [reflexivity|].
  rewrite Hadd in Hget. cbn [snd] in Hget. split; [exact Hget | exact Hin].
Defined.

Lemma filter_filter_swap {A : Type} (f g : A -> bool) (l : list A) :
  filter f (filter g l) = filter g (filter f l).
Proof.
  induction l as [|x l IH]; simpl; [reflexivity|].
  destruct (g x) eqn:Eg, (f x) eqn:Ef; simpl; rewrite ?Eg, ?Ef, IH; reflexivity.
Qed.

(** X11.  Listing after a removal is the listing before it without the
    bookmarks of the removed question: [remove(userId, questionId)] followed
    by [getAll(userId, year)] returns what [getAll(userId, year)] returned,
    minus the entries of that question, for every year. *)
Theorem bookmarks_remove_then_getAll
  (db : DB) (userId questionId : uuid) (year : Z) :
  exists before,
    bookmarks_getAll None db userId year = Return before /\
    bookmarks_getAll None (snd (bookmarks_remove None db userId questionId))
      userId year
    = Return (filter
                (fun x => negb (String.eqb (b_question_id (bq_bookmark x)) questionId))
                before).
Proof.
  eexists. split; [apply bookmarks_getAll_run|].
  rewrite bookmarks_remove_run. cbn [snd]. rewrite bookmarks_getAll_run.
  cbn [bookmarks questions set_bookmarks]. f_equal.
  rewrite filter_filter_swap.
  induction (bookmarks db) as [|b rows IH]; [reflexivity|].
  cbn [filter]. destruct (of_user_year userId year b) eqn:E; [|exact IH].
  cbn [filter map bq_bookmark embed_question].
  unfold same_user_question at 1. unfold of_user_year in E.
  apply andb_true_iff in E. destruct E as [Hu _]. rewrite Hu. cbn [andb].
  destruct (String.eqb (b_question_id b) questionId); cbn [negb map]; [exact IH|].
  f_equal. exact IH.
Qed.

Lemma NoDup_map_filter {A K : Type} (k : A -> K) (f : A -> bool) (l : list A) :
  NoDup (map k l) -> NoDup (map k (filter f l)).
Proof.
  induction l as [|x l IH]; intros Hnd; simpl; [constructor|].
  simpl in Hnd. inversion Hnd as [|? ? Hx Hl]; subst.
  destruct (f x); [|now apply IH]. simpl. constructor; [|now apply IH].
  intros Hin. apply Hx. apply in_map_iff in Hin. destruct Hin as (y & Hk & Hy).
  apply filter_In in Hy. rewrite <- Hk. apply in_map. tauto.
Qed.

(** X12.  A [bookmarks] table that satisfies [UNIQUE(user_id, question_id)]
    and has distinct [id]s still does after [bookmarks.add] and after
    [bookmarks.remove], whatever their arguments and outcome. *)
Theorem bookmarks_constraints_kept
  (fault : option PgError) (now : timestamptz) (db : DB)
  (userId questionId : uuid) (year : Z) :
  bookmarks_constraints (bookmarks db) ->
  bookmarks_constraints
    (bookmarks (snd (bookmarks_add fault now db userId questionId year))) /\
  bookmarks_constraints
    (bookmarks (snd (bookmarks_remove fault db userId questionId))).
Proof.
  intros [Hkey Hid]. split.
  - unfold bookmarks_add, insert_bookmark.
    destruct fault as [e|]; [now split|].
    destruct (existsb (same_user_question userId questionId) (bookmarks db)) eqn:E;
      cbn [snd bookmarks set_bookmarks]; [now split|].
    split; rewrite map_app; apply NoDup_snoc; auto.
    + intros Hin. apply in_map_iff in Hin. destruct Hin as (b & Hk & Hb).
      unfold bookmark_key in Hk. cbn in Hk. injection Hk as Hu Hq.
      assert (existsb (same_user_question userId questionId) (bookmarks db) = true);
        [|congruence].
      apply existsb_exists. exists b. split; [exact Hb|].
      apply same_user_question_spec. now split.
    + apply uuid_generate_v4_fresh.
  - unfold bookmarks_remove, delete_where.
    destruct fault as [e|]; [now split|].
    cbn [rejected eq_uuid snd bookmarks set_bookmarks].
    split; now apply NoDup_map_filter.
Qed.

Lemma bookmarks_constraints_kept_witness :
  bookmarks_constraints (bookmarks one_bookmark) /\
  bookmarks_constraints
    (bookmarks (snd (bookmarks_add None 9 one_bookmark "u1" "q2" 2))).
Proof.
  assert (H : bookmarks_constraints (bookmarks one_bookmark)).
  { split; (constructor; [intros [] | constructor]). }
  split; [exact H|].
  exact (proj1 (bookmarks_constraints_kept None 9 one_bookmark "u1" "q2" 2 H)).
Defined.

(** ** Quiz sessions *)

Lemma set_quiz_sessions_same db : set_quiz_sessions db (quiz_sessions db) = db.
Proof. now destruct db. Qed.

(** What [quizSessions.update] does when the request goes through, by the
    rows that have the id. *)
Lemma quizSessions_update_run now db sessionId answers score timeTaken :
  quizSessions_update None now db sessionId answers score timeTaken =
  match filter (has_id sessionId) (quiz_sessions db) with
  | [s] =>
      (Return (Some (completed now answers score timeTaken s)),
       set_quiz_sessions db
         (update_where (has_id sessionId) (completed now answers score timeTaken)
            (quiz_sessions db)))
  | _ => (Throw (ThrownPg PGRST116), db)
  end.
Proof.
  assert (Hk : forall s, keeps [eq_uuid qs_id sessionId] s = has_id sessionId s).
  { intros s. unfold has_id. cbn. now rewrite andb_true_r. }
  unfold quizSessions_update, update_single.
  rewrite (filter_ext _ _ Hk), (update_where_ext _ _ _ _ Hk).
  destruct (filter (has_id sessionId) (quiz_sessions db)) as [|s [|s' rest]];
    cbn; try reflexivity; now rewrite set_quiz_sessions_same.
Qed.

Lemma update_where_app_one {R : Type} (cond : R -> bool) (g : R -> R)
  (rows : list R) (x : R) :
  (forall r, In r rows -> cond r = false) -> cond x = true ->
  update_where cond g (rows ++ [x]) = rows ++ [g x].
Proof.
  intros Hold Hnew. unfold update_where. rewrite map_app. cbn [map].
  rewrite Hnew. f_equal.
  rewrite <- (map_id rows) at 2. apply map_ext_in.
  intros r Hr. now rewrite (Hold r Hr).
Qed.

(** X14.  A [quiz_sessions] table with distinct [id]s still has distinct
    [id]s after [quizSessions.create] and after [quizSessions.update],
    whatever their arguments and outcome; [update] never changes the number
    of rows, and [create] adds one row exactly when it returns. *)
Theorem quiz_sessions_primary_key_kept
  (fault : option PgError) (now : timestamptz) (db : DB) (userId sessionId : uuid)
  (year : Z) (quizMode : string) (snapshot : list Js.value) (answers : Js.value)
  (score timeTaken : Z) :
  NoDup (map qs_id (quiz_sessions db)) ->
  let created := quizSessions_create fault now db userId year quizMode snapshot in
  let updated := quizSessions_update fault now db sessionId answers score timeTaken in
  NoDup (map qs_id (quiz_sessions (snd created))) /\
  NoDup (map qs_id (quiz_sessions (snd updated))) /\
  List.length (quiz_sessions (snd updated)) = List.length (quiz_sessions db) /\
  List.length (quiz_sessions (snd created)) =
  match fst created with
  | Return _ => S (List.length (quiz_sessions db))
  | Throw _ => List.length (quiz_sessions db)
  end.
Proof.
  intros Hid. cbv zeta. unfold quizSessions_create, insert_quiz_session.
  destruct fault as [e|].
  - repeat split; exact Hid.
  - cbn [single error data ok try_catch throw_if_error fst snd quiz_sessions
      set_quiz_sessions].
    split; [|split; [|split]].
    + rewrite map_app. apply NoDup_snoc; [exact Hid | apply uuid_generate_v4_fresh].
    + rewrite quizSessions_update_run.
      destruct (filter (has_id sessionId) (quiz_sessions db)) as [|s [|s' rest]];
        cbn [snd quiz_sessions set_quiz_sessions]; try exact Hid.
      now rewrite map_update_where.
    + rewrite quizSessions_update_run.
      destruct (filter (has_id sessionId) (quiz_sessions db)) as [|s [|s' rest]];
        cbn [snd quiz_sessions set_quiz_sessions]; try reflexivity.
      unfold update_where. apply length_map.
    + rewrite length_app. cbn. lia.
Qed.

Lemma quiz_sessions_primary_key_kept_witness :
  NoDup (map qs_id (quiz_sessions empty_db)) /\
  NoDup (map qs_id
           (quiz_sessions
              (snd (quizSessions_create None 1 empty_db "u1" 2 "practice" [Js.Str "q1"])))).
Proof.
  assert (H : NoDup (map qs_id (quiz_sessions empty_db))) by constructor.
  split; [exact H|].
  exact (proj1 (quiz_sessions_primary_key_kept None 1 empty_db "u1" "s" 2 "practice"
                  [Js.Str "q1"] Js.Null 0 0 H)).
Defined.

(** Completing the last row of a table whose other rows have other ids. *)
Lemma quizSessions_update_last now db rows created answers score timeTaken :
  (forall s, In s rows -> qs_id s <> qs_id created) ->
  quizSessions_update None now (set_quiz_sessions db (rows ++ [created]))
    (qs_id created) answers score timeTaken =
  (Return (Some (completed now answers score timeTaken created)),
   set_quiz_sessions db (rows ++ [completed now answers score timeTaken created])).
Proof.
  intros Hids. rewrite quizSessions_update_run. cbn [quiz_sessions set_quiz_sessions].
  assert (Hold : forall s, In s rows -> has_id (qs_id created) s = false).
  { intros s Hs. unfold has_id. apply String.eqb_neq. now apply Hids. }
  assert (Hnew : has_id (qs_id created) created = true)
    by (unfold has_id; apply String.eqb_refl).
  rewrite filter_app_one; [| exact Hold | exact Hnew].
  rewrite update_where_app_one; [reflexivity | exact Hold | exact Hnew].
Qed.

(** The row that [create] inserts has an [id] that no stored row has. *)
Lemma quizSessions_create_run now db userId year quizMode snapshot :
  exists created,
    quizSessions_create None now db userId year quizMode snapshot =
    (Return (Some created), set_quiz_sessions db (quiz_sessions db ++ [created])) /\
    (forall s, In s (quiz_sessions db) -> qs_id s <> qs_id created) /\
    qs_user_id created = userId /\ qs_year created = year /\
    qs_quiz_mode created = quizMode /\ qs_questions created = Js.Arr snapshot /\
    qs_answers created = Js.Obj [] /\ qs_score created = 0 /\
    qs_total_questions created = Z.of_nat (List.length snapshot) /\
    completed_at created = None /\ qs_created_at created = now.
Proof.
  unfold quizSessions_create, insert_quiz_session.
  cbn [single error data ok try_catch throw_if_error].
  eexists. split; [reflexivity|]. split; [|repeat split].
  intros s Hs Heq. cbn [qs_id] in Heq.
  apply (uuid_generate_v4_fresh (map qs_id (quiz_sessions db))).
  rewrite <- Heq. now apply in_map.
Qed.

(** X15.  A session that [create] returned and that is then completed with
    [update] under its [id]: [create] returns it in progress
    ([completed_at] unset, score 0, no answers, [total_questions] the length
    of the snapshot); [update] returns it with the answers, score and time
    of the call and [completed_at] the time of the call, its user, year,
    mode, snapshot, [total_questions] and [created_at] as created; and the
    table then holds the earlier rows unchanged, followed by this one. *)
Theorem quizSessions_create_then_update
  (now1 now2 : timestamptz) (db : DB) (userId : uuid) (year : Z) (quizMode : string)
  (snapshot : list Js.value) (answers : Js.value) (score timeTaken : Z) :
  exists created done,
    quizSessions_create None now1 db userId year quizMode snapshot =
    (Return (Some created), set_quiz_sessions db (quiz_sessions db ++ [created])) /\
    completed_at created = None /\ qs_score created = 0 /\
    qs_answers created = Js.Obj [] /\
    qs_total_questions created = Z.of_nat (List.length snapshot) /\
    quizSessions_update None now2
      (snd (quizSessions_create None now1 db userId year quizMode snapshot))
      (qs_id created) answers score timeTaken =
    (Return (Some done), set_quiz_sessions db (quiz_sessions db ++ [done])) /\
    completed_at done = Some now2 /\ qs_answers done = answers /\
    qs_score done = score /\ qs_time_taken done = timeTaken /\
    qs_id done = qs_id created /\ qs_user_id done = userId /\ qs_year done = year /\
    qs_quiz_mode done = quizMode /\ qs_questions done = Js.Arr snapshot /\
    qs_total_questions done = Z.of_nat (List.length snapshot) /\
    qs_created_at done = now1.
Proof.
  destruct (quizSessions_create_run now1 db userId year quizMode snapshot)
    as (created & Hc & Hfresh & Hu & Hy & Hm & Hq & Ha & Hs & Ht & Hat & Hcr).
  exists created, (completed now2 answers score timeTaken created).
  split; [exact Hc|]. do 4 (split; [assumption|]).
  split.
  - rewrite Hc. cbn [snd]. now apply quizSessions_update_last.
  - cbn [completed_at qs_answers qs_score qs_time_taken qs_id qs_user_id qs_year
      qs_quiz_mode qs_questions qs_total_questions qs_created_at completed].
    repeat split; assumption.
Qed.

(** X16.  [quizSessions.update] with an [id] that no session has throws the
    error PGRST116 of [.single()] and changes nothing; a failed request
    throws its error and changes nothing. *)
Theorem quizSessions_update_unknown_id
  (now : timestamptz) (db : DB) (sessionId : uuid) (answers : Js.value)
  (score timeTaken : Z) :
  ~ In sessionId (map qs_id (quiz_sessions db)) ->
  quizSessions_update None now db sessionId answers score timeTaken =
  (Throw (ThrownPg PGRST116), db) /\
  error_kind_of (ThrownPg PGRST116) = NotFoundError /\
  forall e, quizSessions_update (Some e) now db sessionId answers score timeTaken =
            (Throw (ThrownPg e), db).
Proof.
  intros Hnot. split; [|split; [reflexivity|]].
  - rewrite quizSessions_update_run. unfold has_id.
    now rewrite no_row_of_the_id.
  - intros e. unfold quizSessions_update, update_single. cbn.
    now rewrite set_quiz_sessions_same.
Qed.

Lemma quizSessions_update_unknown_id_witness :
  ~ In "s1"%string (map qs_id (quiz_sessions empty_db)) /\
  quizSessions_update None 5 empty_db "s1" (Js.Obj []) 3 60 =
  (Throw (ThrownPg PGRST116), empty_db).
Proof.
  assert (H : ~ In "s1"%string (map qs_id (quiz_sessions empty_db))) by (intros []).
  split; [exact H|].
  exact (proj1 (quizSessions_update_unknown_id 5 empty_db "s1" (Js.Obj []) 3 60 H)).
Defined.

(** X17.  [getHistory] does not list a completed session: after a session
    of a user and year has been created and completed, the table holds it
    with [completed_at] set, and [getHistory] of that user and year still
    returns the empty list, with or without a limit. *)
Theorem getHistory_omits_completed_sessions
  (now1 now2 : timestamptz) (db : DB) (userId : uuid) (year : Z) (quizMode : string)
  (snapshot : list Js.value) (answers : Js.value) (score timeTaken : Z)
  (limit_arg : option nat) :
  exists created done db2,
    fst (quizSessions_create None now1 db userId year quizMode snapshot)
    = Return (Some created) /\
    quizSessions_update None now2
      (snd (quizSessions_create None now1 db userId year quizMode snapshot))
      (qs_id created) answers score timeTaken = (Return (Some done), db2) /\
    In done (quiz_sessions db2) /\
    qs_user_id done = userId /\ qs_year done = year /\
    completed_at done = Some now2 /\
    quizSessions_getHistory None db2 userId year limit_arg = Return [].
Proof.
  destruct (quizSessions_create_run now1 db userId year quizMode snapshot)
    as (created & Hc & Hfresh & Hu & Hy & _).
  exists created, (completed now2 answers score timeTaken created),
    (set_quiz_sessions db
       (quiz_sessions db ++ [completed now2 answers score timeTaken created])).
  rewrite Hc. cbn [fst snd]. split; [reflexivity|].
  split; [now apply quizSessions_update_last|].
  split; [cbn; apply in_or_app; right; now left|].
  split; [exact Hu|]. split; [exact Hy|]. split; [reflexivity|].
  apply quizSessions_getHistory_empty.
Qed.

(** ** progressKey *)

Lemma append_inj_l (p a b : string) : (p ++ a)%string = (p ++ b)%string -> a = b.
Proof.
  induction p as [|c p IH]; simpl; intros H; [exact H|].
  injection H as H. now apply IH.
Qed.

Lemma number_to_string_inj a b : number_to_string a = number_to_string b -> a = b.
Proof.
  unfold number_to_string. intros H.
  apply (f_equal NilEmpty.int_of_string) in H. rewrite !NilEmpty.isi in H.
  injection H as H. apply (f_equal Z.of_int) in H.
  now rewrite !DecimalZ.of_to in H.
Qed.

(** X18.  [progressKey] gives different storage keys to different years
    other than 0; none of them is the year-less key or the key of the
    selected year; year 0, like no year, gets the year-less key. *)
Theorem progressKey_separates_years :
  (forall y1 y2, y1 <> 0 -> y2 <> 0 ->
     progressKey (Some y1) = progressKey (Some y2) -> y1 = y2) /\
  (forall y, y <> 0 ->
     progressKey (Some y) <> STORAGE_KEYS_userProgress /\
     progressKey (Some y) <> STORAGE_KEYS_selectedYear) /\
  progressKey (Some 0) = STORAGE_KEYS_userProgress /\
  progressKey None = STORAGE_KEYS_userProgress.
Proof.
  split; [|split; [|split; reflexivity]].
  - intros y1 y2 H1 H2. unfold progressKey. cbn [Js.truthy].
    apply Z.eqb_neq in H1, H2. rewrite H1, H2. cbn [negb]. intros H.
    apply append_inj_l in H. now apply number_to_string_inj.
  - intros y Hy. unfold progressKey. cbn [Js.truthy].
    apply Z.eqb_neq in Hy. rewrite Hy. cbn [negb].
    unfold STORAGE_KEYS_userProgress, STORAGE_KEYS_selectedYear.
    split; cbn [append]; discriminate.
Qed.

Lemma progressKey_separates_years_witness :
  1 <> 0 /\ 2 <> 0 /\
  progressKey (Some 2) = "tradebench_user_progress_y2"%string /\
  progressKey (Some 1) <> progressKey (Some 2).
Proof.
  split; [discriminate|]. split; [discriminate|]. split; [reflexivity|].
  intros H.
  apply (proj1 progressKey_separates_years 1 2) in H; discriminate.
Defined.

(** ** The auth context *)

Lemma fetchUser_state who profile_read ctx :
  user (snd (fetchUser who profile_read ctx)) = fst (fetchUser who profile_read ctx) /\
  isAuthenticated (snd (fetchUser who profile_read ctx)) =
  is_some (fst (fetchUser who profile_read ctx)) /\
  isLoadingAuth (snd (fetchUser who profile_read ctx)) = false /\
  authError (snd (fetchUser who profile_read ctx)) = None.
Proof.
  unfold fetchUser. destruct (auth_getUser who) as [[u|]|t]; repeat split.
Qed.

(** X19.  [fetchUser] ends with [isLoadingAuth] false and no [authError],
    and holds the user object it returns.  It returns a user object exactly
    when the identity service answered without error and with a user; the
    object has the id and email of that user and the role "user"; its
    [selected_year] is never 0, and is 1, with no security question, when
    the read of the profile row threw or gave no row. *)
Theorem fetchUser_outcome
  (who : auth_answer) (profile_read : outcome (response profile)) (ctx : auth_context) :
  let r := fst (fetchUser who profile_read ctx) in
  let ctx' := snd (fetchUser who profile_read ctx) in
  isLoadingAuth ctx' = false /\ authError ctx' = None /\ user ctx' = r /\
  (r <> None <-> answer_error who = None /\ answer_user who <> None) /\
  (r = None -> session ctx' = None /\ isAuthenticated ctx' = false) /\
  forall u, r = Some u ->
    isAuthenticated ctx' = true /\
    uo_selected_year u <> 0 /\ uo_role u = "user"%string /\
    (exists a, answer_user who = Some a /\ session ctx' = Some (SessionOfUser a) /\
               uo_id u = au_id a /\ uo_email u = au_email a) /\
    ((forall r', profile_read = Return r' -> data r' = None) ->
     uo_selected_year u = 1 /\ uo_security_question u = None).
Proof.
  cbv zeta. unfold fetchUser, auth_getUser.
  destruct who as [au se [e|]];
    cbn [answer_error answer_user try_catch throw_if_error fst snd].
  - cbn. repeat split; try discriminate; try tauto. intros [H _]. discriminate H.
  - destruct au as [a|].
    + cbn [fst snd user session isAuthenticated isLoadingAuth authError].
      split; [reflexivity|]. split; [reflexivity|]. split; [reflexivity|].
      split; [split; [intros _; split; [reflexivity | discriminate] | discriminate]|].
      split; [discriminate|].
      intros u [= <-]. split; [reflexivity|].
      unfold userObj_of. cbn [uo_selected_year uo_role uo_id uo_email
        uo_security_question].
      split; [|split; [reflexivity|split]].
      * destruct (of_profile (profileData_of profile_read) p_selected_year) as [y|];
          [|discriminate].
        cbn. destruct (Z.eqb_spec y 0); cbn; [discriminate | assumption].
      * exists a. repeat split.
      * intros Hno.
        assert (E : profileData_of profile_read = None).
        { destruct profile_read as [r'|t]; [apply (Hno r' eq_refl) | reflexivity]. }
        rewrite E. split; reflexivity.
    + cbn. repeat split; try discriminate; try tauto.
      all: try (intros [_ H]; now destruct H).
Qed.

(** X20.  Started with [isAuthenticated] true exactly when a user object is
    held (as in the initial state), the context is in such a state after any
    sequence of [fetchUser], [signIn], [signUp], [signOut], [resetPassword],
    [clearError] and auth-state notifications, whatever the services
    answer. *)
Theorem context_authenticated_iff_user
  (rpc : DB -> uuid -> string -> response bool) (evs : list context_event)
  (st : auth_context * DB) :
  isAuthenticated (fst st) = is_some (user (fst st)) ->
  isAuthenticated (fst (context_run rpc evs st)) =
  is_some (user (fst (context_run rpc evs st))).
Proof.
  unfold context_run. revert st. induction evs as [|ev evs IH]; intros st Hst;
    [exact Hst|].
  cbn [fold_left]. apply IH. destruct st as [ctx db]. cbn [fst] in Hst.
  pose proof (fetchUser_state) as Hf.
  destruct ev; cbn [context_step fst snd].
  - destruct (Hf who profile_read ctx) as (-> & -> & _). reflexivity.
  - unfold context_signIn. destruct (auth_signIn answer) as [result|t];
      [destruct (is_some (si_session result))|]; cbn [fst snd]; try exact Hst.
    destruct (Hf who profile_read (set_authError None ctx)) as (-> & -> & _).
    reflexivity.
  - unfold context_signUp. destruct (auth_signUp answer) as [result|t];
      [destruct (needsVerification result); [|destruct (is_some (su_session result))]|];
      cbn [fst snd]; try exact Hst.
    destruct (Hf who profile_read (set_authError None ctx)) as (-> & -> & _).
    reflexivity.
  - unfold context_signOut. destruct (auth_signOut answer); [reflexivity | exact Hst].
  - unfold context_resetPassword.
    destruct (auth_resetPassword rpc fault refusal db email securityAnswer newPassword)
      as [[b|t] db']; exact Hst.
  - exact Hst.
  - unfold on_auth_state_change.
    destruct (String.eqb event "SIGNED_IN" && is_some s).
    + destruct (Hf who profile_read ctx) as (-> & -> & _). reflexivity.
    + destruct (String.eqb event "SIGNED_OUT"); [reflexivity|].
      destruct (String.eqb event "TOKEN_REFRESHED"); exact Hst.
Qed.

Lemma context_authenticated_iff_user_witness :
  isAuthenticated (fst (initial_context, empty_db)) =
  is_some (user (fst (initial_context, empty_db))) /\
  isAuthenticated
    (fst (context_run verify_security_answer
            [SignIn (mkAuthAnswer None None (Some (mkPgError "400" "Invalid login")))
               (mkAuthAnswer None None None) (Throw (ThrownError "x"));
             SignOut None]
            (initial_context, empty_db))) = false.
Proof.
  split; [reflexivity|].
  rewrite (context_authenticated_iff_user verify_security_answer _
             (initial_context, empty_db) eq_refl).
  reflexivity.
Defined.

(** X21.  [resetPassword] of the context never throws and touches no cell
    but [authError].  When [api.auth.resetPassword] returns, the result is a
    success and [authError] is cleared; when it throws, the result is a
    failure with the message of the thrown error and [authError] holds that
    message under the type "reset".  In particular, when not exactly one
    profile stores the lower-cased email, the failure is "User not found"
    and nothing is written. *)
Theorem context_resetPassword_outcome
  (rpc : DB -> uuid -> string -> response bool) (fault refusal : option PgError)
  (db : DB) (email securityAnswer newPassword : string) (ctx : auth_context) :
  let api := auth_resetPassword rpc fault refusal db email securityAnswer newPassword in
  let run := context_resetPassword rpc fault refusal db email securityAnswer
               newPassword ctx in
  snd run = snd api /\
  user (snd (fst run)) = user ctx /\ session (snd (fst run)) = session ctx /\
  isAuthenticated (snd (fst run)) = isAuthenticated ctx /\
  isLoadingAuth (snd (fst run)) = isLoadingAuth ctx /\
  (forall b, fst api = Return b ->
     fst (fst run) = Succeeded None /\ authError (snd (fst run)) = None) /\
  (forall t, fst api = Throw t ->
     fst (fst run) = Failed (message_of t) /\
     authError (snd (fst run)) = Some (mkAuthError "reset" (message_of t))) /\
  ((forall p, filter (stores_email (Js.toLowerCase email)) (profiles db) <> [p]) ->
   fst (fst run) = Failed "User not found" /\
   authError (snd (fst run)) = Some (mkAuthError "reset" "User not found") /\
   snd run = db).
Proof.
  cbv zeta. unfold context_resetPassword.
  assert (Hnot : (forall p, filter (stores_email (Js.toLowerCase email)) (profiles db)
                            <> [p]) ->
                 auth_resetPassword rpc fault refusal db email securityAnswer newPassword
                 = (Throw (ThrownError "User not found"), db)).
  { intros H. destruct fault as [e|]; [apply auth_resetPassword_lookup_fault|].
    rewrite auth_resetPassword_run.
    destruct (filter (stores_email (Js.toLowerCase email)) (profiles db))
      as [|p [|p' rest]]; try reflexivity. now destruct (H p). }
  destruct (auth_resetPassword rpc fault refusal db email securityAnswer newPassword)
    as [[b|t] db'] eqn:E; cbn [fst snd user session isAuthenticated isLoadingAuth
      authError set_authError].
  - do 5 (split; [reflexivity|]).
    split; [intros b' _; split; reflexivity|].
    split; [intros t' H'; discriminate H'|].
    intros H. specialize (Hnot H). discriminate Hnot.
  - do 5 (split; [reflexivity|]).
    split; [intros b' H'; discriminate H'|].
    split; [intros t' [= <-]; split; reflexivity|].
    intros H. specialize (Hnot H). injection Hnot as -> ->.
    repeat split; reflexivity.
Qed.

Lemma context_resetPassword_outcome_witness :
  (forall p, filter (stores_email (Js.toLowerCase "A@B.com"))
               (profiles (with_profiles [profile_with "u1" "A@B.com" "Blue"])) <> [p]) /\
  fst (context_resetPassword verify_security_answer None None
         (with_profiles [profile_with "u1" "A@B.com" "Blue"])
         "A@B.com" "blue" "newpass" initial_context)
  = (Failed "User not found",
     set_authError (Some (mkAuthError "reset" "User not found")) initial_context).
Proof.
  assert (H : forall p, filter (stores_email (Js.toLowerCase "A@B.com"))
               (profiles (with_profiles [profile_with "u1" "A@B.com" "Blue"])) <> [p]).
  { intros p. discriminate. }
  split; [exact H|].
  destruct (context_resetPassword_outcome verify_security_answer None None
              (with_profiles [profile_with "u1" "A@B.com" "Blue"])
              "A@B.com" "blue" "newpass" initial_context)
    as (_ & _ & _ & _ & _ & _ & _ & Hnf).
  destruct (Hnf H) as (Hres & Herr & _). reflexivity.
Defined.

(** X22.  [signIn] of the context succeeds exactly when the identity
    service answers without error and with a session, and [signUp] fails
    exactly when the service answers with an error or with neither user nor
    session; [signUp] asks for verification exactly when the service
    answers without error, with a user and without a session, and then
    changes no cell but [authError], which it clears.  A failure of either
    leaves [user], [session] and [isAuthenticated] as they were and records
    the returned message in [authError]. *)
Theorem context_signIn_signUp_outcome
  (answer who : auth_answer) (profile_read : outcome (response profile))
  (ctx : auth_context) :
  let si := context_signIn answer who profile_read ctx in
  let su := context_signUp answer who profile_read ctx in
  ((exists u, fst si = Succeeded u) <->
   answer_error answer = None /\ answer_session answer <> None) /\
  ((exists msg, fst su = Failed msg) <->
   answer_error answer <> None \/
   (answer_user answer = None /\ answer_session answer = None)) /\
  (fst su = NeedsVerification <->
   answer_error answer = None /\ answer_user answer <> None /\
   answer_session answer = None) /\
  (fst su = NeedsVerification -> snd su = set_authError None ctx) /\
  (forall msg, fst si = Failed msg ->
     snd si = set_authError (Some (mkAuthError "signin" msg)) ctx) /\
  (forall msg, fst su = Failed msg ->
     snd su = set_authError (Some (mkAuthError "signup" msg)) ctx).
Proof.
  cbv zeta. unfold context_signIn, context_signUp, auth_signIn, auth_signUp.
  destruct answer as [[u|] [s|] [e|]]; cbn;
    repeat split; intros;
    repeat match goal with
           | H : exists _, _ |- _ => destruct H
           | H : _ /\ _ |- _ => destruct H
           | H : _ \/ _ |- _ => destruct H
           end;
    try congruence; try reflexivity;
    try (eexists; reflexivity);
    try (left; congruence);
    try (right; split; reflexivity);
    match goal with
    | H : Failed _ = Failed _ |- _ => injection H as <-; reflexivity
    end.
Qed.

(** ** get_user_statistics on a missing row *)

(** X23.  For a user and year without a row, [get_user_statistics] returns
    its five keys with the JSON strings "{}" and "[]" as values (the text
    literals of the [ELSE] branch); once [update_user_progress] has created
    the row, it returns the empty object and the empty array of the column
    defaults instead. *)
Theorem get_user_statistics_missing_row
  (now : timestamptz) (rows : list user_progress) (userId : uuid) (year : Z)
  (progress : Js.value) :
  (forall r, In r rows -> ~ is_progress_of userId year r) ->
  get_user_statistics rows userId year =
  Js.Obj [("exam_readiness", Js.Str "{}"); ("statistics", Js.Str "{}");
          ("bookmarks", Js.Str "[]"); ("weak_areas", Js.Str "[]");
          ("streak_data", Js.Str "{}")] /\
  get_user_progress rows userId year = Js.Obj [] /\
  get_user_statistics (snd (update_user_progress now rows userId year progress))
    userId year =
  Js.Obj [("exam_readiness", Js.Obj []); ("statistics", Js.Obj []);
          ("bookmarks", Js.Arr []); ("weak_areas", Js.Arr []);
          ("streak_data", Js.Obj [])].
Proof.
  intros Hnone.
  assert (E : existsb (same_user_year userId year) rows = false).
  { apply existsb_nothing. intros r Hr. specialize (Hnone r Hr).
    destruct (same_user_year userId year r) eqn:Er; [|reflexivity].
    apply same_user_year_spec in Er. contradiction. }
  unfold get_user_statistics, get_user_progress, update_user_progress, select_into.
  rewrite E, (find_none_existsb _ _ E). cbn [snd].
  split; [reflexivity|]. split; [reflexivity|].
  rewrite find_app_last, (find_none_existsb _ _ E).
  rewrite same_user_year_refl; reflexivity.
Qed.

Lemma get_user_statistics_missing_row_witness :
  (forall r, In r (@nil user_progress) -> ~ is_progress_of "u1" 2 r) /\
  get_user_statistics [] "u1" 2 =
  Js.Obj [("exam_readiness", Js.Str "{}"); ("statistics", Js.Str "{}");
          ("bookmarks", Js.Str "[]"); ("weak_areas", Js.Str "[]");
          ("streak_data", Js.Str "{}")].
Proof.
  assert (H : forall r, In r (@nil user_progress) -> ~ is_progress_of "u1" 2 r).
  { intros r []. }
  split; [exact H|].
  exact (proj1 (get_user_statistics_missing_row 0 [] "u1" 2 Js.Null H)).
Defined.

(** ** updateMe *)





